(** * A Monte Carlo model of disease spread: embedding and verification

    Shallow embedding of [final_project_vaccine_model_script_OG.py]:
    the daily update rule [daily_infection], the three drivers
    [infection_model], [full_pop_infected] and [vaccine_introduction], the
    plotting helper [plot_pandemic] and the script that runs them.

    Modelling choices.
    - Python integers are [Z].  The cells of a frame are 64-bit integers
      in pandas; a count only grows by one per draw, so the bound is out of
      reach of any run and is not modelled.
    - Probabilities and random draws are floats in the source; a finite
      float denotes a rational number and [<] on floats is [<] on the
      rationals they denote, so they are modelled as [Q].  The one float
      operation of the program, the subtraction of the vaccine
      effectiveness, is [float_sub]: the difference of the two rationals
      rounded to the nearest double, ties to even.  Infinities and NaN are
      not values of [Q]; a difference beyond the largest double stays the
      rounded rational, which compares with a draw in [0,1) as the
      infinity does.
    - [random.random()] reads a process-wide generator.  The generator is an
      infinite stream of draws [rng : nat -> Q]; the state threaded through
      the code is the cursor into that stream (the number of draws consumed
      so far).
    - A [pd.DataFrame] with columns [Day] and [Infected] and the default
      integer index is a list of rows, the row labelled [i] at position [i].
    - [print] is modelled by returning the printed line next to the frame. *)

From Stdlib Require Import String ZArith QArith List Lia Bool.
From Stdlib Require DecimalString.
Import ListNotations.

Local Open Scope Z_scope.

(** ** The random source and the state monad over its cursor *)

Definition source := nat -> Q.

(** Draws of [random.random()] lie in the half-open interval [0,1). *)
Definition unit_draws (rng : source) : Prop :=
  forall i : nat, (0 <= rng i)%Q /\ (rng i < 1)%Q.

Definition M (A : Type) : Type := nat -> A * nat.

Definition ret {A} (a : A) : M A := fun pos => (a, pos).

Definition bind {A B} (m : M A) (k : A -> M B) : M B :=
  fun pos => let (a, pos') := m pos in k a pos'.

Notation "x <- m ;; k" := (bind m (fun x => k))
  (at level 61, m at next level, right associativity).

(** [random.random()]: the draw under the cursor, the cursor moves by one. *)
Definition random (rng : source) : M Q := fun pos => (rng pos, S pos).

(** [for x in xs: acc = body x acc], threading the cursor. *)
Fixpoint for_each {A S} (xs : list A) (body : A -> S -> M S) (acc : S) : M S :=
  match xs with
  | [] => ret acc
  | x :: rest => acc' <- body x acc ;; for_each rest body acc'
  end.

(** [list(range(lo, hi))]: empty when [hi <= lo]. *)
Definition range (lo hi : Z) : list Z :=
  map (fun i => lo + Z.of_nat i) (seq 0 (Z.to_nat (hi - lo))).

(** Float comparison [x < y]. *)
Definition Qltb (x y : Q) : bool := negb (Qle_bool y x).

(** *** Float subtraction

    A double is [m * 2^e] with [|m| < 2^53] and [e >= -1074].  The result of
    a float operation is the exact result rounded to the nearest such
    number, ties going to the even [m]. *)

(** The integer nearest to [n / d], ties to even, for [n >= 0]. *)
Definition round_half_even (n : Z) (d : positive) : Z :=
  let q := n / Zpos d in
  let r := n mod Zpos d in
  match 2 * r ?= Zpos d with
  | Lt => q
  | Gt => q + 1
  | Eq => if Z.even q then q else q + 1
  end.

(** [floor (log2 (n / d))]. *)
Definition binade (n d : positive) : Z :=
  let k := Z.log2 (Zpos n) - Z.log2 (Zpos d) in
  if (if 0 <=? k then Zpos d * 2 ^ k <=? Zpos n
      else Zpos d <=? Zpos n * 2 ^ (- k))
  then k else k - 1.

(** The double nearest to [n / d]: 53 significant bits, or the spacing
    [2^-1074] of the subnormal numbers. *)
Definition round_positive (n d : positive) : Q :=
  let e := Z.max (binade n d - 52) (-1074) in
  if 0 <=? e then
    inject_Z (round_half_even (Zpos n) (d * Z.to_pos (2 ^ e)) * 2 ^ e)
  else
    Qmake (round_half_even (Zpos n * 2 ^ (- e)) d) (Z.to_pos (2 ^ (- e))).

Definition round_double (q : Q) : Q :=
  match Qnum q with
  | 0 => 0%Q
  | Zpos n => round_positive n (Qden q)
  | Zneg n => (- round_positive n (Qden q))%Q
  end.

(** Float subtraction [x - y]. *)
Definition float_sub (x y : Q) : Q := round_double (x - y).

(** [str(n)] for a Python integer. *)
Definition str (n : Z) : string := DecimalString.NilZero.string_of_int (Z.to_int n).

(** ** The data frame *)

Record row : Type := mkrow { Day : Z; Infected : Z }.

Definition DataFrame := list row.

(** [pd.DataFrame({'Day': [0], 'Infected': [starting_infected]})] *)
Definition new_frame (starting_infected : Z) : DataFrame :=
  [mkrow 0 starting_infected].

(** [infected_df['Infected'][len(infected_df)-1]]: the [Infected] cell of the
    row labelled [len - 1], the last one.  Every frame of the program holds
    the day-0 row, so the lookup never fails; the default is never read. *)
Definition last_infected (df : DataFrame) : Z :=
  Infected (nth (length df - 1) df (mkrow 0 0)).

(** [infected_df.loc[len(infected_df)] = day_reading]: the label
    [len(infected_df)] is new, so the row is appended. *)
Definition append_row (df : DataFrame) (day_reading : row) : DataFrame :=
  df ++ [day_reading].

(** ** The daily update rule *)

Section Program.

Variable rng : source.

(** The inner loop
<<
    encounter = 0
    while encounter < max_infections:
        if random.random() < infection_probability: extra_infected += 1
        encounter += 1
>>
    [encounter] counts up from 0 by one, so the body runs
    [max(0, max_infections)] times; [trips] is that number. *)
Fixpoint encounters (trips : nat) (infection_probability : Q)
    (extra_infected : Z) : M Z :=
  match trips with
  | O => ret extra_infected
  | S trips' =>
      r <- random rng ;;
      encounters trips' infection_probability
        (if Qltb r infection_probability then extra_infected + 1
         else extra_infected)
  end.

Definition daily_infection (starting_infected : Z) (infection_probability : Q)
    (max_infections : Z) : M Z :=
  extra_infected <-
    for_each (range 0 starting_infected)
      (fun _infected_person extra =>
         encounters (Z.to_nat max_infections) infection_probability extra)
      0 ;;
  ret (extra_infected + starting_infected).

(** The default [max_infections=3], used by every driver. *)
Definition daily_infection_default (starting_infected : Z)
    (infection_probability : Q) : M Z :=
  daily_infection starting_infected infection_probability 3.

(** ** The fixed-duration driver *)

Definition infection_model (number_days starting_infected : Z)
    (infection_probability : Q) : M DataFrame :=
  for_each (range 1 (number_days + 1))
    (fun day infected_df =>
       day_infection <-
         daily_infection_default (last_infected infected_df)
           infection_probability ;;
       ret (append_row infected_df (mkrow day day_infection)))
    (new_frame starting_infected).

(** ** The saturation driver *)

Definition full_pop_summary (day : Z) : string :=
  ("Model estimates " ++ str day
     ++ " days until the full population is infected.")%string.

(** The [while] loop of [full_pop_infected].  It need not terminate, so the
    loop takes fuel: one unit per test of the loop condition, [None] when the
    fuel runs out.  The result is the frame, the value of [day] on exit and
    the cursor. *)
Fixpoint full_pop_loop (fuel : nat) (population : Z) (infection_probability : Q)
    (infected_df : DataFrame) (day : Z) (pos : nat)
    : option (DataFrame * Z * nat) :=
  match fuel with
  | O => None
  | S fuel' =>
      if last_infected infected_df <? population then
        let (day_infection, pos') :=
          daily_infection_default (last_infected infected_df)
            infection_probability pos in
        let day_reading :=
          if day_infection <? population then mkrow day day_infection
          else mkrow day population in
        full_pop_loop fuel' population infection_probability
          (append_row infected_df day_reading) (day + 1) pos'
      else Some (infected_df, day, pos)
  end.

(** Result: the returned frame, the printed line, the cursor. *)
Definition full_pop_infected (fuel : nat) (population starting_infected : Z)
    (infection_probability : Q) (pos : nat)
    : option (DataFrame * string * nat) :=
  match full_pop_loop fuel population infection_probability
          (new_frame starting_infected) 1 pos with
  | Some (infected_df, day, pos') =>
      Some (infected_df, full_pop_summary day, pos')
  | None => None
  end.

(** ** The vaccine driver *)

Definition vaccine_summary (vaccine_day last_count number_days : Z) : string :=
  ("With a vaccine on day " ++ str vaccine_day
     ++ " the model estimates there will be " ++ str last_count
     ++ " people infected on day " ++ str number_days)%string.

(** The probability the vaccine driver passes to the update rule on [day]. *)
Definition vaccine_probability (vaccine_day : Z) (vaccine_effectiveness : Q)
    (infection_probability : Q) (day : Z) : Q :=
  if day <? vaccine_day then infection_probability
  else float_sub infection_probability vaccine_effectiveness.

(** The [day += 1] that ends the loop body rebinds a variable the [for]
    statement overwrites at the next iteration; it changes no row. *)
Definition vaccine_introduction (starting_infected vaccine_day : Z)
    (vaccine_effectiveness : Q) (number_days : Z) (infection_probability : Q)
    : M (DataFrame * string) :=
  infected_df <-
    for_each (range 1 (number_days + 1))
      (fun day infected_df =>
         day_infection <-
           (if day <? vaccine_day then
              daily_infection_default (last_infected infected_df)
                infection_probability
            else
              daily_infection_default (last_infected infected_df)
                (float_sub infection_probability vaccine_effectiveness)) ;;
         ret (append_row infected_df (mkrow day day_infection)))
      (new_frame starting_infected) ;;
  ret (infected_df,
       vaccine_summary vaccine_day (last_infected infected_df) number_days).

End Program.

(** ** Fixed random sources used by the examples *)

(** Every draw is [0]: a trial succeeds whenever the probability is positive. *)
Definition always_zero : source := fun _ => 0%Q.

(** Every draw is [99/100]. *)
Definition always_high : source := fun _ => (99 # 100)%Q.

(** Every draw is [r]. *)
Definition constant (r : Q) : source := fun _ => r.

(** Draws alternate [0], [1/2], [0], [1/2], ... *)
Definition alternating : source :=
  fun i => if Nat.even i then 0%Q else (1 # 2)%Q.

(** ** Reference definitions used to state the properties *)

(** The number of draws strictly below [p] among the [n] draws that start at
    cursor [pos]. *)
Fixpoint successes (rng : source) (p : Q) (pos n : nat) : Z :=
  match n with
  | O => 0
  | S n' => (if Qltb (rng pos) p then 1 else 0) + successes rng p (S pos) n'
  end.

(** The update rule as the specification words it: exactly
    [starting_infected * max_infections] draws are consumed, [extra_infected]
    is the number of them strictly below the probability, and the result is
    [starting_infected + extra_infected]; nothing caps the sum and nothing
    removes repeated infections. *)
Definition daily_infection_reference (rng : source) (starting_infected : Z)
    (infection_probability : Q) (max_infections : Z) : M Z :=
  fun pos =>
    let draws := Z.to_nat (starting_infected * max_infections) in
    let extra_infected := successes rng infection_probability pos draws in
    (starting_infected + extra_infected, (pos + draws)%nat).

(** The rows of a frame, read by label. *)
Definition row_at (df : DataFrame) (i : nat) : row := nth i df (mkrow 0 0).

(** Day values are 0, 1, 2, ... in row order. *)
Definition consecutive_days (df : DataFrame) : Prop :=
  forall i : nat, (i < length df)%nat -> Day (row_at df i) = Z.of_nat i.

(** Infected values never decrease from one row to the next. *)
Definition nondecreasing (df : DataFrame) : Prop :=
  forall i : nat, (S i < length df)%nat ->
    Infected (row_at df i) <= Infected (row_at df (S i)).

(** *** The drivers, day by day

    A driver records one value per day; the value of a day is computed from
    the value recorded the day before, at the cursor the day before left.
    [step day prev] is that computation.  [day_state step s pos d] is the
    value recorded on day [d] together with the cursor after day [d], for a
    run that starts with [s] infected at cursor [pos]. *)
Fixpoint day_state (step : Z -> Z -> M Z) (starting_infected : Z) (pos : nat)
    (d : nat) : Z * nat :=
  match d with
  | O => (starting_infected, pos)
  | S d' =>
      let (prev, q) := day_state step starting_infected pos d' in
      step (Z.of_nat (S d')) prev q
  end.

(** The frame holding days [0 .. n] of such a run. *)
Definition frame_of (step : Z -> Z -> M Z) (starting_infected : Z) (pos : nat)
    (n : nat) : DataFrame :=
  map (fun d => mkrow (Z.of_nat d) (fst (day_state step starting_infected pos d)))
      (seq 0 (S n)).

(** The body shared by the two [for] drivers: read the last value, compute
    the day's value, append the row. *)
Definition record_day (step : Z -> Z -> M Z) (day : Z) (infected_df : DataFrame)
    : M DataFrame :=
  day_infection <- step day (last_infected infected_df) ;;
  ret (append_row infected_df (mkrow day day_infection)).

(** The day's computation of each driver, as its loop body has it. *)
Definition fixed_step (rng : source) (infection_probability : Q)
    : Z -> Z -> M Z :=
  fun _ prev => daily_infection_default rng prev infection_probability.

Definition vaccine_step (rng : source) (vaccine_day : Z)
    (vaccine_effectiveness infection_probability : Q) : Z -> Z -> M Z :=
  fun day prev =>
    if day <? vaccine_day then
      daily_infection_default rng prev infection_probability
    else
      daily_infection_default rng prev
        (float_sub infection_probability vaccine_effectiveness).

Definition saturation_step (rng : source) (population : Z)
    (infection_probability : Q) : Z -> Z -> M Z :=
  fun _ prev pos =>
    let (day_infection, pos') :=
      daily_infection_default rng prev infection_probability pos in
    (if day_infection <? population then day_infection else population, pos').

(** The cursor at which day [d >= 1] of a run starts. *)
Definition cursor_before (step : Z -> Z -> M Z) (starting_infected : Z)
    (pos : nat) (d : nat) : nat :=
  snd (day_state step starting_infected pos (d - 1)).

(** The sum of the [Infected] column. *)
Definition total_infected (df : DataFrame) : Z :=
  fold_right (fun r acc => Infected r + acc) 0 df.

(** Rows relabelled [offset] days later. *)
Definition shift_days (offset : Z) (df : DataFrame) : DataFrame :=
  map (fun r => mkrow (offset + Day r) (Infected r)) df.

(** ** Plotting

    [plot_pandemic] only acts on the plotting library.  Its effect is the
    sequence of library calls it makes, in order, and how it ends: by
    returning, or by the [KeyError] of a column the frame does not have. *)

Inductive plot_call : Type :=
| PltSubplots
| AxPlot (points : list (Z * Z))
| AxSetXLabel (text : string)
| AxSetYLabel (text : string)
| AxSetTitle (text : string)
| AxVLine (x : Z) (color linestyle label : string)
| PltLegend
| PltShow.

Inductive outcome : Type :=
| Returned
| KeyError (key : string).

(** [df[name]]: a frame of the program has the columns [Day] and
    [Infected]; any other name is a missing key. *)
Definition column (df : DataFrame) (name : string) : option (list Z) :=
  if String.eqb name "Day" then Some (map Day df)
  else if String.eqb name "Infected" then Some (map Infected df)
  else None.

(** [ax.plot(series)] draws each value of the series against its row
    label, and the row labels of a frame are 0, 1, 2, ... *)
Definition series_points (ys : list Z) : list (Z * Z) :=
  combine (map Z.of_nat (seq 0 (length ys))) ys.

(** [vaccine_day=None] by default; [if vaccine_day:] holds for an integer
    other than 0. *)
Definition plot_pandemic (df : DataFrame) (infected_col : string)
    (vaccine_day : option Z) : list plot_call * outcome :=
  match column df infected_col with
  | None => ([PltSubplots], KeyError infected_col)
  | Some ys =>
      ([PltSubplots; AxPlot (series_points ys); AxSetXLabel "Days";
        AxSetYLabel "Number of infected"; AxSetTitle "Disease transmission"]
       ++ match vaccine_day with
          | Some x =>
              if x =? 0 then []
              else [AxVLine x "green" "--" "Vaccine introduction"; PltLegend]
          | None => []
          end
       ++ [PltShow],
       Returned)
  end.

(** ** The script

    The module runs three simulations and plots each.  [p] and [e] are the
    values of the float literals [0.05] and [0.01].  The result holds the
    three frames, the lines printed and the plotting calls, in order, and
    the cursor; [None] when the fuel of the saturation run runs out. *)

Record script_result : Type := mkscript {
  three_day_sim : DataFrame;
  full_pop_sim : DataFrame;
  vaccine_sim : DataFrame;
  printed : list string;
  plotted : list plot_call;
  final_cursor : nat
}.

Definition script (rng : source) (p e : Q) (fuel : nat) (pos : nat)
    : option script_result :=
  let (three_day, q1) := infection_model rng 3 10 p pos in
  let plot1 := plot_pandemic three_day "Infected" None in
  match full_pop_infected rng fuel 1000 10 p q1 with
  | None => None
  | Some (full_pop, line1, q2) =>
      let plot2 := plot_pandemic full_pop "Infected" None in
      let '(vaccine, line2, q3) := vaccine_introduction rng 10 3 e 10 p q2 in
      let plot3 := plot_pandemic vaccine "Infected" (Some 3) in
      Some (mkscript three_day full_pop vaccine [line1; line2]
              (fst plot1 ++ fst plot2 ++ fst plot3) q3)
  end.

(** ** Runs of the program on the fixed sources *)

Example infection_model_all_succeed :
  fst (infection_model always_zero 3 10 (5 # 100) 0%nat)
  = [mkrow 0 10; mkrow 1 40; mkrow 2 160; mkrow 3 640].
Proof. vm_compute. reflexivity. Qed.

Example infection_model_all_fail :
  infection_model always_high 3 10 (5 # 100) 0%nat
  = ([mkrow 0 10; mkrow 1 10; mkrow 2 10; mkrow 3 10], 90%nat).
Proof. vm_compute. reflexivity. Qed.

Example full_pop_run :
  full_pop_infected always_zero 10 100 10 (5 # 100) 0%nat
  = Some ([mkrow 0 10; mkrow 1 40; mkrow 2 100],
          "Model estimates 3 days until the full population is infected."%string,
          150%nat).
Proof. vm_compute. reflexivity. Qed.

Example vaccine_run :
  fst (vaccine_introduction alternating 2 3 (1 # 2) 4 (1 # 2) 0%nat)
  = ([mkrow 0 2; mkrow 1 5; mkrow 2 13; mkrow 3 13; mkrow 4 13],
     "With a vaccine on day 3 the model estimates there will be 13 people infected on day 4"%string).
Proof. vm_compute. reflexivity. Qed.

(** Float subtraction on doubles: [0.05 - 0.01] is the double [0.04]; a
    difference half way between two doubles goes to the even one; below
    [2^-1022] the spacing is [2^-1074]. *)
Example float_sub_literals :
  (float_sub (3602879701896397 # 72057594037927936)
     (5764607523034235 # 576460752303423488)
   == 5764607523034235 # 144115188075855872)%Q.
Proof. vm_compute. reflexivity. Qed.

Example float_sub_exact : (float_sub (1 # 2) (1 # 4) == 1 # 4)%Q.
Proof. vm_compute. reflexivity. Qed.

Example float_sub_ties_to_even :
  (float_sub (1 + (1 # 9007199254740992)) 0 == 1)%Q
  /\ (float_sub (1 + (3 # 9007199254740992)) 0
      == 1 + (1 # 2251799813685248))%Q.
Proof. split; vm_compute; reflexivity. Qed.

Example float_sub_subnormal :
  (float_sub (3 # Z.to_pos (2 ^ 1075)) 0 == 1 # Z.to_pos (2 ^ 1073))%Q
  /\ (float_sub (1 # Z.to_pos (2 ^ 1075)) 0 == 0)%Q.
Proof. split; vm_compute; reflexivity. Qed.

(** The difference [(0.75 + 2^-53) - 3 * 2^-55] rounds to [0.75]: a draw of
    [0.75] is not below it, and the day after the vaccine records no new
    infection. *)
Example float_sub_rounds_down :
  (float_sub ((3 # 4) + (1 # 9007199254740992)) (3 # 36028797018963968)
   == 3 # 4)%Q.
Proof. vm_compute. reflexivity. Qed.

Example vaccine_run_rounded :
  fst (fst (vaccine_introduction (constant (3 # 4)) 1 1
              (3 # 36028797018963968) 1
              ((3 # 4) + (1 # 9007199254740992)) 0%nat))
  = [mkrow 0 1; mkrow 1 1].
Proof. vm_compute. reflexivity. Qed.

(** ** The daily update rule: lemmas *)

Section UpdateRule.

Variable rng : source.

Lemma successes_nonneg (p : Q) (n pos : nat) : 0 <= successes rng p pos n.
Proof.
  revert pos. induction n as [|n IH]; intros pos; simpl; [lia|].
  specialize (IH (S pos)). destruct (Qltb (rng pos) p); lia.
Qed.

Lemma successes_le_count (p : Q) (n pos : nat) :
  successes rng p pos n <= Z.of_nat n.
Proof.
  revert pos. induction n as [|n IH]; intros pos; [simpl; lia|].
  cbn [successes]. specialize (IH (S pos)).
  destruct (Qltb (rng pos) p); lia.
Qed.

Lemma successes_split (p : Q) (a b pos : nat) :
  successes rng p pos (a + b)
  = successes rng p pos a + successes rng p (pos + a) b.
Proof.
  revert pos. induction a as [|a IH]; intros pos; simpl.
  - now rewrite Nat.add_0_r.
  - rewrite IH. replace (S pos + a)%nat with (pos + S a)%nat by lia. lia.
Qed.

Lemma successes_mono (p : Q) (pos a b : nat) :
  (a <= b)%nat -> successes rng p pos a <= successes rng p pos b.
Proof.
  intros Hab. replace b with (a + (b - a))%nat by lia.
  rewrite successes_split.
  pose proof (successes_nonneg p (b - a) (pos + a)). lia.
Qed.

Lemma encounters_eq (p : Q) (trips : nat) (extra : Z) (pos : nat) :
  encounters rng trips p extra pos
  = (extra + successes rng p pos trips, (pos + trips)%nat).
Proof.
  revert extra pos. induction trips as [|k IH]; intros extra pos.
  - simpl. unfold ret. f_equal; [lia | lia].
  - cbn [encounters successes]. unfold bind, random. rewrite IH.
    f_equal; [destruct (Qltb (rng pos) p); lia | lia].
Qed.

Lemma for_each_encounters {A} (xs : list A) (p : Q) (trips : nat)
    (extra : Z) (pos : nat) :
  for_each xs (fun _ e => encounters rng trips p e) extra pos
  = (extra + successes rng p pos (length xs * trips),
     (pos + length xs * trips)%nat).
Proof.
  revert extra pos. induction xs as [|x xs IH]; intros extra pos.
  - simpl. unfold ret. f_equal; lia.
  - cbn [for_each length]. unfold bind. rewrite encounters_eq, IH.
    replace (S (length xs) * trips)%nat
      with (trips + length xs * trips)%nat by lia.
    rewrite successes_split. f_equal; lia.
Qed.

Lemma range_length (lo hi : Z) : length (range lo hi) = Z.to_nat (hi - lo).
Proof. unfold range. now rewrite length_map, length_seq. Qed.

Lemma range_nth (lo hi : Z) (i : nat) :
  (i < Z.to_nat (hi - lo))%nat -> nth i (range lo hi) 0 = lo + Z.of_nat i.
Proof.
  intros Hi. unfold range.
  rewrite (nth_indep _ 0 (lo + Z.of_nat 0))
    by now rewrite length_map, length_seq.
  rewrite (map_nth (fun k => lo + Z.of_nat k) _ 0%nat).
  now rewrite seq_nth.
Qed.

(** What the update rule computes, for arguments of any sign. *)
Lemma daily_infection_eq (s : Z) (p : Q) (m : Z) (pos : nat) :
  daily_infection rng s p m pos
  = (s + successes rng p pos (Z.to_nat s * Z.to_nat m),
     (pos + Z.to_nat s * Z.to_nat m)%nat).
Proof.
  unfold daily_infection, bind. rewrite for_each_encounters, range_length.
  unfold ret. rewrite Z.sub_0_r. f_equal. lia.
Qed.

Lemma daily_infection_ge (s : Z) (p : Q) (m : Z) (pos : nat) :
  s <= fst (daily_infection rng s p m pos).
Proof.
  rewrite daily_infection_eq. simpl.
  pose proof (successes_nonneg p (Z.to_nat s * Z.to_nat m) pos). lia.
Qed.

Lemma successes_nonpositive (p : Q) (n pos : nat) :
  (p <= 0)%Q -> (forall i, (0 <= rng i)%Q) -> successes rng p pos n = 0.
Proof.
  intros Hp Hrng. revert pos. induction n as [|n IH]; intros pos; simpl; [lia|].
  rewrite IH. unfold Qltb.
  assert (Hle : Qle_bool p (rng pos) = true).
  { apply Qle_bool_iff. apply Qle_trans with 0%Q; [exact Hp | apply Hrng]. }
  now rewrite Hle.
Qed.

End UpdateRule.

(** ** Frames and day-by-day runs: lemmas *)

Section Runs.

Variable step : Z -> Z -> M Z.
Variable s : Z.
Variable pos : nat.

Lemma range_cons (lo hi : Z) : lo < hi -> range lo hi = lo :: range (lo + 1) hi.
Proof.
  intros Hlt. unfold range.
  replace (Z.to_nat (hi - lo)) with (S (Z.to_nat (hi - (lo + 1)))) by lia.
  cbn [seq map]. f_equal; [lia|].
  rewrite <- seq_shift, map_map. apply map_ext. intros i. lia.
Qed.

Lemma range_empty (lo hi : Z) : hi <= lo -> range lo hi = [].
Proof.
  intros Hle. unfold range. now replace (Z.to_nat (hi - lo)) with 0%nat by lia.
Qed.

Lemma frame_of_length (n : nat) : length (frame_of step s pos n) = S n.
Proof. unfold frame_of. now rewrite length_map, length_seq. Qed.

Lemma frame_of_row (n i : nat) :
  (i <= n)%nat ->
  row_at (frame_of step s pos n) i
  = mkrow (Z.of_nat i) (fst (day_state step s pos i)).
Proof.
  intros Hi. unfold row_at, frame_of.
  set (f := fun d => mkrow (Z.of_nat d) (fst (day_state step s pos d))).
  rewrite (nth_indep _ (mkrow 0 0) (f 0%nat))
    by (rewrite length_map, length_seq; lia).
  rewrite map_nth, seq_nth by lia. reflexivity.
Qed.

Lemma frame_of_succ (n : nat) :
  frame_of step s pos (S n)
  = append_row (frame_of step s pos n)
      (mkrow (Z.of_nat (S n)) (fst (day_state step s pos (S n)))).
Proof.
  unfold frame_of, append_row. rewrite (seq_S (S n) 0), map_app. reflexivity.
Qed.

Lemma frame_of_last (n : nat) :
  last_infected (frame_of step s pos n) = fst (day_state step s pos n).
Proof.
  unfold last_infected. rewrite frame_of_length.
  replace (S n - 1)%nat with n by lia.
  fold (row_at (frame_of step s pos n) n). now rewrite frame_of_row.
Qed.

Lemma record_day_frame (n : nat) :
  record_day step (Z.of_nat (S n)) (frame_of step s pos n)
    (snd (day_state step s pos n))
  = (frame_of step s pos (S n), snd (day_state step s pos (S n))).
Proof.
  unfold record_day, bind, ret. rewrite frame_of_last, frame_of_succ.
  cbn [day_state].
  destruct (day_state step s pos n) as [prev q]. cbn [fst snd].
  destruct (step (Z.of_nat (S n)) prev q) as [v q']. reflexivity.
Qed.

(** Running [k] more days from the state after day [n]. *)
Lemma for_each_record (k n : nat) :
  for_each (range (Z.of_nat n + 1) (Z.of_nat n + 1 + Z.of_nat k))
    (record_day step) (frame_of step s pos n) (snd (day_state step s pos n))
  = (frame_of step s pos (n + k), snd (day_state step s pos (n + k))).
Proof.
  revert n. induction k as [|k IH]; intros n.
  - rewrite range_empty by lia. simpl. unfold ret. now rewrite Nat.add_0_r.
  - rewrite range_cons by lia. cbn [for_each]. unfold bind at 1.
    replace (Z.of_nat n + 1) with (Z.of_nat (S n)) by lia.
    rewrite record_day_frame.
    replace (Z.of_nat (S n) + Z.of_nat (S k))
      with (Z.of_nat (S n) + 1 + Z.of_nat k) by lia.
    rewrite IH. now replace (S n + k)%nat with (n + S k)%nat by lia.
Qed.

(** A [for] driver over [range(1, number_days+1)]. *)
Lemma for_each_days (number_days : Z) :
  for_each (range 1 (number_days + 1)) (record_day step) (new_frame s) pos
  = (frame_of step s pos (Z.to_nat number_days),
     snd (day_state step s pos (Z.to_nat number_days))).
Proof.
  pose proof (for_each_record (Z.to_nat number_days) 0) as H.
  cbn [Nat.add] in H. rewrite <- H. clear H.
  destruct (Z.le_gt_cases number_days 0) as [Hneg|Hpos].
  - rewrite !range_empty by lia. reflexivity.
  - replace (Z.of_nat 0 + 1 + Z.of_nat (Z.to_nat number_days))
      with (number_days + 1) by lia.
    reflexivity.
Qed.

Lemma frame_of_consecutive (n : nat) : consecutive_days (frame_of step s pos n).
Proof.
  intros i Hi. rewrite frame_of_length in Hi. now rewrite frame_of_row by lia.
Qed.

Lemma frame_of_nondecreasing (n : nat) :
  (forall k, (k < n)%nat ->
     fst (day_state step s pos k) <= fst (day_state step s pos (S k))) ->
  nondecreasing (frame_of step s pos n).
Proof.
  intros Hmono i Hi. rewrite frame_of_length in Hi.
  rewrite !frame_of_row by lia. cbn [Infected]. apply Hmono. lia.
Qed.

End Runs.

(** ** The drivers as day-by-day runs *)

Section Drivers.

Variable rng : source.

Lemma infection_model_frame (number_days s : Z) (p : Q) (pos : nat) :
  infection_model rng number_days s p pos
  = (frame_of (fixed_step rng p) s pos (Z.to_nat number_days),
     snd (day_state (fixed_step rng p) s pos (Z.to_nat number_days))).
Proof. exact (for_each_days (fixed_step rng p) s pos number_days). Qed.

Lemma vaccine_introduction_frame (s vaccine_day : Z) (v : Q) (number_days : Z)
    (p : Q) (pos : nat) :
  fst (fst (vaccine_introduction rng s vaccine_day v number_days p pos))
  = frame_of (vaccine_step rng vaccine_day v p) s pos (Z.to_nat number_days).
Proof.
  unfold vaccine_introduction, bind.
  change (for_each (range 1 (number_days + 1)) _ (new_frame s) pos)
    with (for_each (range 1 (number_days + 1))
            (record_day (vaccine_step rng vaccine_day v p)) (new_frame s) pos).
  rewrite for_each_days. reflexivity.
Qed.

Lemma vaccine_step_probability (vaccine_day : Z) (v p : Q) (day prev : Z) :
  vaccine_step rng vaccine_day v p day prev
  = daily_infection_default rng prev (vaccine_probability vaccine_day v p day).
Proof.
  unfold vaccine_step, vaccine_probability. now destruct (day <? vaccine_day).
Qed.

Lemma fixed_state_mono (p : Q) (s : Z) (pos k : nat) :
  fst (day_state (fixed_step rng p) s pos k)
  <= fst (day_state (fixed_step rng p) s pos (S k)).
Proof.
  cbn [day_state]. destruct (day_state (fixed_step rng p) s pos k) as [prev q].
  cbn [fst]. apply daily_infection_ge.
Qed.

Lemma vaccine_state_mono (vaccine_day : Z) (v p : Q) (s : Z) (pos k : nat) :
  fst (day_state (vaccine_step rng vaccine_day v p) s pos k)
  <= fst (day_state (vaccine_step rng vaccine_day v p) s pos (S k)).
Proof.
  cbn [day_state].
  destruct (day_state (vaccine_step rng vaccine_day v p) s pos k) as [prev q].
  cbn [fst]. rewrite vaccine_step_probability. apply daily_infection_ge.
Qed.

(** *** The saturation loop *)

Section Saturation.

Variable population : Z.
Variable p : Q.
Variable s : Z.
Variable pos : nat.

Let sat := saturation_step rng population p.

Lemma saturation_state_succ (k : nat) :
  day_state sat s pos (S k)
  = (let raw := daily_infection_default rng (fst (day_state sat s pos k)) p
                  (snd (day_state sat s pos k)) in
     (if fst raw <? population then fst raw else population, snd raw)).
Proof.
  cbn [day_state]. destruct (day_state sat s pos k) as [prev q].
  unfold sat at 1, saturation_step. cbn [fst snd].
  now destruct (daily_infection_default rng prev p q).
Qed.

Lemma saturation_state_le (k : nat) :
  fst (day_state sat s pos (S k)) <= population.
Proof.
  rewrite saturation_state_succ. cbn [fst].
  destruct (Z.ltb_spec
    (fst (daily_infection_default rng (fst (day_state sat s pos k)) p
            (snd (day_state sat s pos k)))) population); lia.
Qed.

Lemma saturation_state_mono (k : nat) :
  fst (day_state sat s pos k) < population ->
  fst (day_state sat s pos k) <= fst (day_state sat s pos (S k)).
Proof.
  intros Hlt. rewrite saturation_state_succ. cbn [fst].
  pose proof (daily_infection_ge rng (fst (day_state sat s pos k)) p 3
                (snd (day_state sat s pos k))) as Hge.
  unfold daily_infection_default.
  destruct (Z.ltb_spec
    (fst (daily_infection rng (fst (day_state sat s pos k)) p 3
            (snd (day_state sat s pos k)))) population); lia.
Qed.

(** One iteration of the [while] loop moves the run one day on. *)
Lemma full_pop_loop_step (fuel n : nat) :
  fst (day_state sat s pos n) < population ->
  full_pop_loop rng (S fuel) population p (frame_of sat s pos n)
    (Z.of_nat n + 1) (snd (day_state sat s pos n))
  = full_pop_loop rng fuel population p (frame_of sat s pos (S n))
      (Z.of_nat (S n) + 1) (snd (day_state sat s pos (S n))).
Proof.
  intros Hlt. cbn [full_pop_loop]. rewrite frame_of_last.
  destruct (Z.ltb_spec (fst (day_state sat s pos n)) population); [|lia].
  rewrite frame_of_succ, saturation_state_succ. cbn [fst snd].
  destruct (daily_infection_default rng (fst (day_state sat s pos n)) p
              (snd (day_state sat s pos n))) as [raw q].
  cbn [fst snd]. replace (Z.of_nat (S n)) with (Z.of_nat n + 1) by lia.
  now destruct (raw <? population).
Qed.

(** The loop stops at the first test that finds the ceiling reached. *)
Lemma full_pop_loop_stop (fuel n : nat) :
  population <= fst (day_state sat s pos n) ->
  full_pop_loop rng (S fuel) population p (frame_of sat s pos n)
    (Z.of_nat n + 1) (snd (day_state sat s pos n))
  = Some (frame_of sat s pos n, Z.of_nat n + 1, snd (day_state sat s pos n)).
Proof.
  intros Hge. cbn [full_pop_loop]. rewrite frame_of_last.
  destruct (Z.ltb_spec (fst (day_state sat s pos n)) population); [lia|].
  reflexivity.
Qed.

(** A returning loop stopped on the first day whose value reaches the
    population. *)
Lemma full_pop_loop_sound (fuel n : nat) (df : DataFrame) (day : Z) (q : nat) :
  full_pop_loop rng fuel population p (frame_of sat s pos n)
    (Z.of_nat n + 1) (snd (day_state sat s pos n)) = Some (df, day, q) ->
  exists n' : nat,
    (n <= n')%nat /\ df = frame_of sat s pos n' /\ day = Z.of_nat n' + 1
    /\ q = snd (day_state sat s pos n')
    /\ (forall k, (n <= k < n')%nat -> fst (day_state sat s pos k) < population)
    /\ population <= fst (day_state sat s pos n').
Proof.
  revert n. induction fuel as [|fuel IH]; intros n Hrun; [discriminate|].
  destruct (Z.lt_ge_cases (fst (day_state sat s pos n)) population) as [Hlt|Hge].
  - rewrite full_pop_loop_step in Hrun by assumption.
    destruct (IH _ Hrun) as (n' & Hle & Hdf & Hday & Hq & Hbelow & Hreach).
    exists n'. repeat split; try assumption; try lia.
    intros k Hk. destruct (Nat.eq_dec k n) as [->|Hne]; [assumption|].
    apply Hbelow. lia.
  - rewrite full_pop_loop_stop in Hrun by assumption.
    injection Hrun as <- <- <-. exists n.
    repeat split; try reflexivity; try lia.
Qed.

(** The loop returns as soon as some day's value reaches the population. *)
Lemma full_pop_loop_complete (k n : nat) :
  population <= fst (day_state sat s pos (n + k)) ->
  exists r, full_pop_loop rng (S k) population p (frame_of sat s pos n)
              (Z.of_nat n + 1) (snd (day_state sat s pos n)) = Some r.
Proof.
  revert n. induction k as [|k IH]; intros n Hreach.
  - rewrite Nat.add_0_r in Hreach. rewrite full_pop_loop_stop by assumption.
    eauto.
  - destruct (Z.lt_ge_cases (fst (day_state sat s pos n)) population)
      as [Hlt|Hge].
    + rewrite full_pop_loop_step by assumption. apply IH.
      now replace (S n + k)%nat with (n + S k)%nat by lia.
    + rewrite full_pop_loop_stop by assumption. eauto.
Qed.

(** The driver, for a returning run. *)
Lemma full_pop_infected_sound (fuel : nat) (df : DataFrame) (line : string)
    (q : nat) :
  full_pop_infected rng fuel population s p pos = Some (df, line, q) ->
  exists n : nat,
    df = frame_of sat s pos n
    /\ line = full_pop_summary (Z.of_nat n + 1)
    /\ q = snd (day_state sat s pos n)
    /\ (forall k, (k < n)%nat -> fst (day_state sat s pos k) < population)
    /\ population <= fst (day_state sat s pos n).
Proof.
  unfold full_pop_infected. intros Hrun.
  destruct (full_pop_loop rng fuel population p (new_frame s) 1 pos)
    as [[[df' day] q']|] eqn:Hloop; [|discriminate].
  injection Hrun as <- <- <-.
  apply (full_pop_loop_sound fuel 0) in Hloop.
  destruct Hloop as (n & _ & Hdf & Hday & Hq & Hbelow & Hreach).
  exists n. subst. repeat split; auto. intros k Hk. apply Hbelow. lia.
Qed.

End Saturation.

End Drivers.

(** ** Properties of the daily update rule *)

(** C1.  For [starting_infected >= 0] and [max_infections >= 0] the update
    rule is the reference definition: it consumes exactly
    [starting_infected * max_infections] draws, counts those strictly below
    the probability and returns [starting_infected] plus that count, with no
    cap and no deduplication. *)
Theorem daily_infection_refines_reference (rng : source)
    (starting_infected : Z) (infection_probability : Q) (max_infections : Z)
    (pos : nat) :
  0 <= starting_infected -> 0 <= max_infections ->
  daily_infection rng starting_infected infection_probability max_infections pos
  = daily_infection_reference rng starting_infected infection_probability
      max_infections pos.
Proof.
  intros Hs Hm. rewrite daily_infection_eq. unfold daily_infection_reference.
  now rewrite Z2Nat.inj_mul by assumption.
Qed.

Lemma daily_infection_refines_reference_witness :
  0 <= 2 /\ 0 <= 3
  /\ daily_infection alternating 2 (1 # 4) 3 5%nat
     = daily_infection_reference alternating 2 (1 # 4) 3 5%nat.
Proof.
  split; [lia|]. split; [lia|].
  apply (daily_infection_refines_reference alternating 2 (1 # 4) 3 5%nat); lia.
Defined.

Example daily_infection_reference_run :
  daily_infection_reference alternating 2 (1 # 4) 3 5%nat = (5, 11%nat).
Proof. vm_compute. reflexivity. Qed.

(** C6.  With a probability that is zero or negative and draws in [0,1), no
    trial succeeds: the update rule returns exactly [starting_infected]. *)
Theorem daily_infection_nonpositive_probability (rng : source)
    (starting_infected : Z) (infection_probability : Q) (max_infections : Z)
    (pos : nat) :
  0 <= starting_infected -> 0 <= max_infections ->
  (infection_probability <= 0)%Q -> unit_draws rng ->
  fst (daily_infection rng starting_infected infection_probability
         max_infections pos) = starting_infected.
Proof.
  intros _ _ Hp Hrng. rewrite daily_infection_eq. cbn [fst].
  rewrite successes_nonpositive; [lia | exact Hp |].
  intros i. apply Hrng.
Qed.

Lemma always_high_unit_draws : unit_draws always_high.
Proof.
  intros i. unfold always_high, Qle, Qlt. simpl. lia.
Defined.

Lemma always_zero_unit_draws : unit_draws always_zero.
Proof.
  intros i. unfold always_zero, Qle, Qlt. simpl. lia.
Defined.

Lemma daily_infection_nonpositive_probability_witness :
  0 <= 10 /\ 0 <= 3 /\ (-(1 # 100) <= 0)%Q /\ unit_draws always_zero
  /\ fst (daily_infection always_zero 10 (-(1 # 100)) 3 0%nat) = 10.
Proof.
  assert (Hp : (-(1 # 100) <= 0)%Q) by (unfold Qle; simpl; lia).
  split; [lia|]. split; [lia|]. split; [exact Hp|].
  split; [exact always_zero_unit_draws|].
  apply (daily_infection_nonpositive_probability always_zero 10 (-(1 # 100)) 3
           0%nat); [lia | lia | exact Hp | exact always_zero_unit_draws].
Defined.

(** C10.  With [starting_infected <= 0] or [max_infections = 0] no trial is
    made: no draw is consumed and [starting_infected] comes back unchanged,
    a negative one included. *)
Theorem daily_infection_no_trial (rng : source) (starting_infected : Z)
    (infection_probability : Q) (max_infections : Z) (pos : nat) :
  starting_infected <= 0 \/ max_infections = 0 ->
  daily_infection rng starting_infected infection_probability max_infections pos
  = (starting_infected, pos).
Proof.
  intros Hcase. rewrite daily_infection_eq.
  replace (Z.to_nat starting_infected * Z.to_nat max_infections)%nat
    with 0%nat by (destruct Hcase as [Hs| ->]; lia).
  simpl. f_equal; lia.
Qed.

Lemma daily_infection_no_trial_witness :
  (-4 <= 0 \/ 3 = 0)
  /\ daily_infection always_zero (-4) (1 # 2) 3 7%nat = (-4, 7%nat).
Proof.
  split; [left; lia|].
  apply (daily_infection_no_trial always_zero (-4) (1 # 2) 3 7%nat). left. lia.
Defined.

Example daily_infection_no_encounter :
  daily_infection always_zero 10 (1 # 2) 0 7%nat = (10, 7%nat).
Proof. vm_compute. reflexivity. Qed.

(** ** Properties of the saturation driver *)

(** A run that starts at or above the population ends at the first test of
    the loop condition. *)
Lemma full_pop_infected_first_test (rng : source) (fuel : nat)
    (population s : Z) (p : Q) (pos : nat) :
  population <= s ->
  full_pop_infected rng (S fuel) population s p pos
  = Some ([mkrow 0 s], full_pop_summary 1, pos).
Proof.
  intros Hfull. unfold full_pop_infected, new_frame. cbn [full_pop_loop].
  unfold last_infected. cbn [length Nat.sub nth Infected].
  destruct (Z.ltb_spec s population); [lia|]. reflexivity.
Qed.

(** C5.  When [starting_infected >= population] the loop body never runs:
    the first test of the loop condition ends the loop, the frame is the
    day-0 row alone, the cursor has not moved (the update rule was not
    called, no draw was consumed) and the printed day count is 1. *)
Theorem full_pop_infected_already_full (rng : source) (fuel : nat)
    (population starting_infected : Z) (infection_probability : Q)
    (pos : nat) :
  population <= starting_infected ->
  full_pop_infected rng (S fuel) population starting_infected
    infection_probability pos
  = Some ([mkrow 0 starting_infected], full_pop_summary 1, pos)
  /\ full_pop_summary 1
     = "Model estimates 1 days until the full population is infected."%string.
Proof.
  intros Hfull. split; [|reflexivity].
  now apply full_pop_infected_first_test.
Qed.

Lemma full_pop_infected_already_full_witness :
  5 <= 10
  /\ full_pop_infected always_zero 1 5 10 (5 # 100) 4%nat
     = Some ([mkrow 0 10], full_pop_summary 1, 4%nat)
  /\ full_pop_summary 1
     = "Model estimates 1 days until the full population is infected."%string.
Proof.
  split; [lia|].
  apply (full_pop_infected_already_full always_zero 0 5 10 (5 # 100) 4%nat).
  lia.
Defined.

(** C4.  A returning run that starts below the population ends on a row
    holding exactly the population, every earlier row lies strictly below
    it, and each appended value is the raw result of the update rule when
    that is below the population and the population otherwise. *)
Theorem full_pop_infected_saturates (rng : source) (fuel : nat)
    (population starting_infected : Z) (infection_probability : Q)
    (pos : nat) (df : DataFrame) (line : string) (q : nat) :
  full_pop_infected rng fuel population starting_infected
    infection_probability pos = Some (df, line, q) ->
  0 <= starting_infected < population ->
  last_infected df = population
  /\ (forall i : nat, (S i < length df)%nat ->
        Infected (row_at df i) < population)
  /\ (forall i : nat, (S i < length df)%nat ->
        let raw :=
          fst (daily_infection rng (Infected (row_at df i))
                 infection_probability 3
                 (cursor_before
                    (saturation_step rng population infection_probability)
                    starting_infected pos (S i))) in
        Infected (row_at df (S i))
        = if raw <? population then raw else population).
Proof.
  intros Hrun [_ Hbelow0].
  apply full_pop_infected_sound in Hrun.
  destruct Hrun as (n & -> & _ & _ & Hbelow & Hreach).
  destruct n as [|n]; [cbn [day_state fst] in Hreach; lia|].
  rewrite frame_of_length. split; [|split].
  - rewrite frame_of_last.
    pose proof (saturation_state_le rng population infection_probability
                  starting_infected pos n). lia.
  - intros i Hi. rewrite frame_of_row by lia. cbn [Infected].
    apply Hbelow. lia.
  - intros i Hi. rewrite !frame_of_row by lia. cbn [Infected].
    rewrite saturation_state_succ. cbn [fst]. unfold cursor_before.
    replace (S i - 1)%nat with i by lia. reflexivity.
Qed.

Lemma full_pop_infected_saturates_witness :
  full_pop_infected always_zero 5 100 10 (5 # 100) 0%nat
  = Some ([mkrow 0 10; mkrow 1 40; mkrow 2 100],
          full_pop_summary 3, 150%nat)
  /\ 0 <= 10 < 100
  /\ last_infected [mkrow 0 10; mkrow 1 40; mkrow 2 100] = 100.
Proof.
  assert (Hrun : full_pop_infected always_zero 5 100 10 (5 # 100) 0%nat
                 = Some ([mkrow 0 10; mkrow 1 40; mkrow 2 100],
                         full_pop_summary 3, 150%nat))
    by (vm_compute; reflexivity).
  split; [exact Hrun|]. split; [lia|].
  apply (full_pop_infected_saturates always_zero 5 100 10 (5 # 100) 0%nat
           _ _ _ Hrun). lia.
Defined.

(** C9, as amended.  When [starting_infected <= population], no row of a
    returned frame, the day-0 row included, holds more than the
    population. *)
Theorem full_pop_infected_ceiling (rng : source) (fuel : nat)
    (population starting_infected : Z) (infection_probability : Q)
    (pos : nat) (df : DataFrame) (line : string) (q : nat) :
  full_pop_infected rng fuel population starting_infected
    infection_probability pos = Some (df, line, q) ->
  starting_infected <= population ->
  forall i : nat, (i < length df)%nat -> Infected (row_at df i) <= population.
Proof.
  intros Hrun Hstart i Hi.
  apply full_pop_infected_sound in Hrun.
  destruct Hrun as (n & -> & _ & _ & _ & _).
  rewrite frame_of_length in Hi. rewrite frame_of_row by lia. cbn [Infected].
  destruct i as [|i]; [exact Hstart|]. apply saturation_state_le.
Qed.

Lemma full_pop_infected_ceiling_witness :
  full_pop_infected always_zero 5 100 10 (5 # 100) 0%nat
  = Some ([mkrow 0 10; mkrow 1 40; mkrow 2 100],
          full_pop_summary 3, 150%nat)
  /\ 10 <= 100
  /\ Infected (row_at [mkrow 0 10; mkrow 1 40; mkrow 2 100] 2) <= 100.
Proof.
  assert (Hrun : full_pop_infected always_zero 5 100 10 (5 # 100) 0%nat
                 = Some ([mkrow 0 10; mkrow 1 40; mkrow 2 100],
                         full_pop_summary 3, 150%nat))
    by (vm_compute; reflexivity).
  split; [exact Hrun|]. split; [lia|].
  apply (full_pop_infected_ceiling always_zero 5 100 10 (5 # 100) 0%nat
           _ _ _ Hrun); [lia | simpl; lia].
Defined.

(** C9 as stated fails: a run that starts above the population returns the
    day-0 row, whose value exceeds the population. *)
Lemma full_pop_infected_ceiling_counterexample :
  full_pop_infected always_zero 1 5 10 (5 # 100) 0%nat
  = Some ([mkrow 0 10], full_pop_summary 1, 0%nat)
  /\ 5 < Infected (row_at [mkrow 0 10] 0).
Proof. split; [vm_compute; reflexivity | simpl; lia]. Qed.

(** The line printed by a returning run names the day after the last row:
    the number of rows of the frame. *)
Lemma full_pop_infected_reports_rows (rng : source) (fuel : nat)
    (population starting_infected : Z) (infection_probability : Q)
    (pos : nat) (df : DataFrame) (line : string) (q : nat) :
  full_pop_infected rng fuel population starting_infected
    infection_probability pos = Some (df, line, q) ->
  line = full_pop_summary (Z.of_nat (length df))
  /\ Day (row_at df (length df - 1)) = Z.of_nat (length df) - 1.
Proof.
  intros Hrun. apply full_pop_infected_sound in Hrun.
  destruct Hrun as (n & -> & -> & _ & _ & _).
  rewrite frame_of_length. split; [f_equal; lia|].
  rewrite frame_of_row by lia. cbn [Day]. lia.
Qed.

(** C2.  The run below reaches the population of 20 on the row of day 1,
    the first and only row holding 20, and prints 2 as the day count. *)
Theorem full_pop_infected_reported_day :
  full_pop_infected always_zero 3 20 10 (5 # 100) 0%nat
  = Some ([mkrow 0 10; mkrow 1 20],
          "Model estimates 2 days until the full population is infected."%string,
          30%nat).
Proof. vm_compute. reflexivity. Qed.

(** ** Properties of the vaccine driver *)

(** C7.  On each day [d] from 1 to [number_days], running the update rule
    on the value recorded the day before, at the cursor where day [d]
    starts, with [infection_probability] when [d < vaccine_day] and with
    the float difference [infection_probability - vaccine_effectiveness],
    unclamped, otherwise,
    gives the value recorded on day [d] and the cursor where the next day
    starts.  The recorded value is that result as it is: no ceiling. *)
Theorem vaccine_introduction_day (rng : source)
    (starting_infected vaccine_day : Z) (vaccine_effectiveness : Q)
    (number_days : Z) (infection_probability : Q) (pos : nat) (d : Z) :
  1 <= d <= number_days ->
  let df :=
    fst (fst (vaccine_introduction rng starting_infected vaccine_day
                vaccine_effectiveness number_days infection_probability pos)) in
  let cursor :=
    cursor_before
      (vaccine_step rng vaccine_day vaccine_effectiveness infection_probability)
      starting_infected pos in
  let probability :=
    if d <? vaccine_day then infection_probability
    else float_sub infection_probability vaccine_effectiveness in
  Day (row_at df (Z.to_nat d)) = d
  /\ daily_infection rng (Infected (row_at df (Z.to_nat d - 1))) probability 3
       (cursor (Z.to_nat d))
     = (Infected (row_at df (Z.to_nat d)), cursor (S (Z.to_nat d))).
Proof.
  intros Hd df cursor probability. subst df cursor probability.
  rewrite vaccine_introduction_frame.
  rewrite !frame_of_row by lia. cbn [Day Infected].
  split; [lia|].
  unfold cursor_before.
  destruct (Z.to_nat d) as [|k] eqn:Hk; [lia|].
  replace (S k - 1)%nat with k by lia. replace (S (S k) - 1)%nat with (S k) by lia.
  cbn [day_state].
  destruct (day_state
              (vaccine_step rng vaccine_day vaccine_effectiveness
                 infection_probability) starting_infected pos k)
    as [prev c]. cbn [fst snd].
  replace (Z.of_nat (S k)) with d by lia.
  rewrite vaccine_step_probability. unfold vaccine_probability.
  fold (daily_infection_default rng prev
          (if d <? vaccine_day then infection_probability
           else float_sub infection_probability vaccine_effectiveness)).
  now destruct (daily_infection_default rng prev _ c).
Qed.

Lemma vaccine_introduction_day_witness :
  1 <= 3 <= 4
  /\ Day (row_at (fst (fst (vaccine_introduction alternating 2 3 (1 # 2) 4
                              (1 # 2) 0%nat))) (Z.to_nat 3)) = 3.
Proof.
  split; [lia|].
  apply (vaccine_introduction_day alternating 2 3 (1 # 2) 4 (1 # 2) 0%nat 3).
  lia.
Defined.

(** The day-1 cursor is the cursor the driver was called with. *)
Lemma cursor_before_first (step : Z -> Z -> M Z) (s : Z) (pos : nat) :
  cursor_before step s pos 1 = pos.
Proof. reflexivity. Qed.

(** Counts grow past any nominal population: from 10 infected, four days of
    successful trials record 2560. *)
Example vaccine_introduction_unbounded :
  map Infected
    (fst (fst (vaccine_introduction always_zero 10 9 (1 # 100) 4 (5 # 100)
                 0%nat)))
  = [10; 40; 160; 640; 2560].
Proof. vm_compute. reflexivity. Qed.

(** ** Shape of the returned frames *)

(** C8, as amended.  In the frame each driver returns, Day values are
    0, 1, 2, ... in row order and Infected values never decrease from row
    to row; the frames of [infection_model] and [vaccine_introduction] have
    exactly [max(number_days, 0) + 1] rows, that is [number_days + 1] rows
    when [number_days >= 0]. *)
Theorem driver_frames_shape (rng : source) (number_days starting_infected : Z)
    (vaccine_day : Z) (vaccine_effectiveness infection_probability : Q)
    (population : Z) (fuel : nat) (pos : nat)
    (df : DataFrame) (line : string) (q : nat) :
  0 <= starting_infected ->
  full_pop_infected rng fuel population starting_infected
    infection_probability pos = Some (df, line, q) ->
  let fixed :=
    fst (infection_model rng number_days starting_infected
           infection_probability pos) in
  let vaccine :=
    fst (fst (vaccine_introduction rng starting_infected vaccine_day
                vaccine_effectiveness number_days infection_probability pos)) in
  (consecutive_days fixed /\ nondecreasing fixed
   /\ Z.of_nat (length fixed) = Z.max number_days 0 + 1)
  /\ (consecutive_days vaccine /\ nondecreasing vaccine
      /\ Z.of_nat (length vaccine) = Z.max number_days 0 + 1)
  /\ (consecutive_days df /\ nondecreasing df).
Proof.
  intros _ Hrun fixed vaccine. subst fixed vaccine.
  rewrite infection_model_frame, vaccine_introduction_frame. cbn [fst].
  apply full_pop_infected_sound in Hrun.
  destruct Hrun as (n & -> & _ & _ & Hbelow & _).
  repeat split.
  - apply frame_of_consecutive.
  - apply frame_of_nondecreasing. intros k _. apply fixed_state_mono.
  - rewrite frame_of_length. lia.
  - apply frame_of_consecutive.
  - apply frame_of_nondecreasing. intros k _. apply vaccine_state_mono.
  - rewrite frame_of_length. lia.
  - apply frame_of_consecutive.
  - apply frame_of_nondecreasing. intros k Hk.
    apply saturation_state_mono. now apply Hbelow.
Qed.

Lemma driver_frames_shape_witness :
  0 <= 10
  /\ full_pop_infected always_zero 5 100 10 (5 # 100) 0%nat
     = Some ([mkrow 0 10; mkrow 1 40; mkrow 2 100],
             full_pop_summary 3, 150%nat)
  /\ consecutive_days [mkrow 0 10; mkrow 1 40; mkrow 2 100]
  /\ nondecreasing [mkrow 0 10; mkrow 1 40; mkrow 2 100].
Proof.
  assert (Hrun : full_pop_infected always_zero 5 100 10 (5 # 100) 0%nat
                 = Some ([mkrow 0 10; mkrow 1 40; mkrow 2 100],
                         full_pop_summary 3, 150%nat))
    by (vm_compute; reflexivity).
  split; [lia|]. split; [exact Hrun|].
  apply (driver_frames_shape always_zero 3 10 2 (1 # 100) (5 # 100) 100 5
           0%nat _ _ _ ltac:(lia) Hrun).
Defined.

(** C8 as stated fails for a negative [number_days]: the frame of
    [infection_model(-1, 10, 0.05)] has one row, not [-1 + 1 = 0] rows. *)
Lemma driver_frames_shape_counterexample :
  fst (infection_model always_zero (-1) 10 (5 # 100) 0%nat) = [mkrow 0 10]
  /\ Z.of_nat (length (fst (infection_model always_zero (-1) 10 (5 # 100)
                              0%nat))) <> -1 + 1.
Proof. split; [vm_compute; reflexivity | vm_compute; discriminate]. Qed.

(** ** Termination *)

Section Termination.

Variable rng : source.
Variable population : Z.
Variable p : Q.
Variable s : Z.
Variable pos : nat.

Local Abbreviation sat := (saturation_step rng population p).

(** Among the first values of a sequence, one reaches the bound or all stay
    below it. *)
Lemma bounded_search (f : nat -> Z) (bound : Z) (n : nat) :
  (exists k, (k <= n)%nat /\ bound <= f k)
  \/ (forall k, (k <= n)%nat -> f k < bound).
Proof.
  induction n as [|n [(k & Hk & Hreach)|Hall]].
  - destruct (Z.lt_ge_cases (f 0%nat) bound) as [Hlt|Hge].
    + right. intros k Hk. now replace k with 0%nat by lia.
    + left. exists 0%nat. split; [lia | assumption].
  - left. exists k. split; [lia | assumption].
  - destruct (Z.lt_ge_cases (f (S n)) bound) as [Hlt|Hge].
    + right. intros k Hk. destruct (Nat.eq_dec k (S n)) as [->|Hne];
        [assumption | apply Hall; lia].
    + left. exists (S n). split; [lia | assumption].
Qed.

(** While the run stays below the population nothing is clamped: the value
    of day [d] is [s] plus the successes among all the draws consumed so
    far, and each day consumes at least three draws when [s >= 1]. *)
Lemma saturation_state_unclamped (d : nat) :
  1 <= s ->
  (forall k, (k <= d)%nat -> fst (day_state sat s pos k) < population) ->
  fst (day_state sat s pos d)
  = s + successes rng p pos (snd (day_state sat s pos d) - pos)
  /\ (pos + 3 * d <= snd (day_state sat s pos d))%nat.
Proof.
  intros Hs. induction d as [|d IH]; intros Hbelow.
  - cbn [day_state fst snd]. rewrite Nat.sub_diag. simpl. lia.
  - destruct IH as [Hval Hcur]; [intros k Hk; apply Hbelow; lia|].
    pose proof (Hbelow (S d) (Nat.le_refl _)) as Hlt.
    rewrite saturation_state_succ in Hlt |- *. cbn [fst snd] in Hlt |- *.
    unfold daily_infection_default in Hlt |- *.
    rewrite daily_infection_eq in Hlt |- *. cbn [fst snd] in Hlt |- *.
    change (Z.to_nat 3) with 3%nat in Hlt |- *.
    set (v := fst (day_state sat s pos d)) in *.
    set (c := snd (day_state sat s pos d)) in *.
    pose proof (successes_nonneg rng p (c - pos) pos) as Hnn.
    destruct (Z.ltb_spec (v + successes rng p c (Z.to_nat v * 3)) population)
      as [_|Hge]; [|lia].
    split; [|lia].
    replace (c + Z.to_nat v * 3 - pos)%nat
      with ((c - pos) + Z.to_nat v * 3)%nat by lia.
    rewrite successes_split. replace (pos + (c - pos))%nat with c by lia.
    lia.
Qed.

(** The saturation driver returns once the draws from the cursor on hold
    enough successes to fill the population. *)
Lemma full_pop_infected_returns (n : nat) :
  1 <= s -> population - s <= successes rng p pos n ->
  exists fuel r, full_pop_infected rng fuel population s p pos = Some r.
Proof.
  intros Hs Hdraws.
  destruct (bounded_search (fun k => fst (day_state sat s pos k)) population n)
    as [(k & _ & Hreach)|Hbelow].
  - destruct (full_pop_loop_complete rng population p s pos k 0 Hreach)
      as [[[df day] q] Hrun].
    exists (S k). unfold full_pop_infected.
    change (new_frame s) with (frame_of sat s pos 0).
    change 1 with (Z.of_nat 0 + 1) at 1.
    change pos with (snd (day_state sat s pos 0)) at 2.
    rewrite Hrun. eauto.
  - exfalso. destruct (saturation_state_unclamped n Hs Hbelow) as [Hval Hcur].
    pose proof (Hbelow n (Nat.le_refl _)) as Hlt.
    pose proof (successes_mono rng p pos n
                  (snd (day_state sat s pos n) - pos)) as Hmono.
    lia.
Qed.

(** With a probability that is zero or negative the recorded value never
    moves, so a run that starts below the population never returns. *)
Lemma saturation_state_stuck (k : nat) :
  (p <= 0)%Q -> (forall i, (0 <= rng i)%Q) -> s < population ->
  fst (day_state sat s pos k) = s.
Proof.
  intros Hp Hrng Hlt. induction k as [|k IH]; [reflexivity|].
  rewrite saturation_state_succ. cbn [fst].
  unfold daily_infection_default. rewrite daily_infection_eq. cbn [fst].
  rewrite successes_nonpositive by assumption. rewrite IH.
  destruct (Z.ltb_spec (s + 0) population); lia.
Qed.

Lemma full_pop_infected_stuck (fuel : nat) :
  (p <= 0)%Q -> (forall i, (0 <= rng i)%Q) -> s < population ->
  full_pop_infected rng fuel population s p pos = None.
Proof.
  intros Hp Hrng Hlt.
  destruct (full_pop_infected rng fuel population s p pos)
    as [[[df line] q]|] eqn:Hrun; [|reflexivity].
  apply full_pop_infected_sound in Hrun.
  destruct Hrun as (n & _ & _ & _ & _ & Hreach).
  rewrite saturation_state_stuck in Hreach by assumption.
  lia.
Qed.

End Termination.

(** C3, as amended.  [infection_model] and [vaccine_introduction] return a
    frame for all arguments and all draws.  [full_pop_infected] returns a
    frame when [starting_infected >= population], and when
    [starting_infected >= 1] and the draws from the cursor on hold at least
    [population - starting_infected] values below the probability. *)
Theorem drivers_return (rng : source) (number_days starting_infected : Z)
    (vaccine_day : Z) (vaccine_effectiveness infection_probability : Q)
    (population : Z) (pos n : nat) :
  population <= starting_infected
  \/ (1 <= starting_infected
      /\ population - starting_infected
         <= successes rng infection_probability pos n) ->
  (exists df q,
     infection_model rng number_days starting_infected infection_probability
       pos = (df, q))
  /\ (exists df line q,
        vaccine_introduction rng starting_infected vaccine_day
          vaccine_effectiveness number_days infection_probability pos
        = (df, line, q))
  /\ (exists fuel df line q,
        full_pop_infected rng fuel population starting_infected
          infection_probability pos = Some (df, line, q)).
Proof.
  intros Hcase. split; [|split].
  - rewrite infection_model_frame. eauto.
  - destruct (vaccine_introduction rng starting_infected vaccine_day
                vaccine_effectiveness number_days infection_probability pos)
      as [[df line] q]. eauto.
  - destruct Hcase as [Hfull|[Hs Hdraws]].
    + exists 1%nat, [mkrow 0 starting_infected], (full_pop_summary 1), pos.
      now apply full_pop_infected_first_test.
    + destruct (full_pop_infected_returns rng population infection_probability
                  starting_infected pos n Hs Hdraws) as (fuel & [[df line] q] & Hrun).
      eauto.
Qed.

Lemma drivers_return_witness :
  (1000 <= 10 \/ (1 <= 10 /\ 1000 - 10 <= successes always_zero (5 # 100) 0 990))
  /\ exists fuel df line q,
       full_pop_infected always_zero fuel 1000 10 (5 # 100) 0%nat
       = Some (df, line, q).
Proof.
  assert (Hdraws : 1000 - 10 <= successes always_zero (5 # 100) 0 990)
    by (vm_compute; discriminate).
  split; [right; split; [lia | exact Hdraws]|].
  apply (drivers_return always_zero 3 10 3 (1 # 100) (5 # 100) 1000 0%nat
           990%nat).
  right. split; [lia | exact Hdraws].
Defined.

(** C3 as stated fails: with probability 0 and 10 infected out of 1000, no
    draw in [0,1) ever succeeds and the saturation driver returns for no
    amount of fuel. *)
Lemma drivers_return_counterexample :
  unit_draws always_high
  /\ ~ (exists fuel r,
          full_pop_infected always_high fuel 1000 10 0 0%nat = Some r).
Proof.
  split; [exact always_high_unit_draws|].
  intros (fuel & r & Hrun).
  rewrite full_pop_infected_stuck in Hrun; [discriminate | | | lia].
  - unfold Qle. simpl. lia.
  - intros i. apply always_high_unit_draws.
Qed.

(** ** More on the daily update rule *)

Section UpdateRuleBounds.

Variable rng : source.

Lemma Qltb_true_iff (x y : Q) : Qltb x y = true <-> (x < y)%Q.
Proof.
  unfold Qltb. rewrite negb_true_iff. split.
  - intros Hb. apply Qnot_le_lt. intros Hle.
    apply Qle_bool_iff in Hle. congruence.
  - intros Hlt. destruct (Qle_bool y x) eqn:Hb; [|reflexivity].
    apply Qle_bool_iff in Hb. exfalso. exact (Qlt_not_le _ _ Hlt Hb).
Qed.

Lemma successes_all (p : Q) (n pos : nat) :
  (forall i, (rng i < p)%Q) -> successes rng p pos n = Z.of_nat n.
Proof.
  intros Hall. revert pos. induction n as [|n IH]; intros pos; [reflexivity|].
  cbn [successes]. rewrite IH.
  replace (Qltb (rng pos) p) with true
    by (symmetry; apply Qltb_true_iff, Hall).
  lia.
Qed.

Lemma successes_mono_probability (p p' : Q) (n pos : nat) :
  (p <= p')%Q -> successes rng p pos n <= successes rng p' pos n.
Proof.
  intros Hpp. revert pos. induction n as [|n IH]; intros pos; [reflexivity|].
  cbn [successes]. specialize (IH (S pos)).
  destruct (Qltb (rng pos) p) eqn:Hb.
  - apply Qltb_true_iff in Hb.
    replace (Qltb (rng pos) p') with true
      by (symmetry; apply Qltb_true_iff; eapply Qlt_le_trans; eassumption).
    lia.
  - destruct (Qltb (rng pos) p'); lia.
Qed.

Lemma daily_infection_upper (s : Z) (p : Q) (m : Z) (pos : nat) :
  0 <= s -> 0 <= m -> fst (daily_infection rng s p m pos) <= s * (1 + m).
Proof.
  intros Hs Hm. rewrite daily_infection_eq. cbn [fst].
  pose proof (successes_le_count rng p (Z.to_nat s * Z.to_nat m) pos) as Hle.
  rewrite Nat2Z.inj_mul, !Z2Nat.id in Hle by assumption. lia.
Qed.

Lemma daily_infection_full (s : Z) (p : Q) (m : Z) (pos : nat) :
  0 <= s -> 0 <= m -> (forall i, (rng i < p)%Q) ->
  fst (daily_infection rng s p m pos) = s * (1 + m).
Proof.
  intros Hs Hm Hall. rewrite daily_infection_eq. cbn [fst].
  rewrite successes_all by assumption.
  rewrite Nat2Z.inj_mul, !Z2Nat.id by assumption. lia.
Qed.

Lemma unit_draws_below (p : Q) :
  unit_draws rng -> (1 <= p)%Q -> forall i, (rng i < p)%Q.
Proof.
  intros Hrng Hp i. eapply Qlt_le_trans; [apply Hrng | exact Hp].
Qed.

End UpdateRuleBounds.

(** X1.  For [starting_infected >= 0] and [max_infections >= 0] one day
    multiplies the count by at most [1 + max_infections] and never lowers
    it. *)
Theorem daily_infection_bounds (rng : source) (starting_infected : Z)
    (infection_probability : Q) (max_infections : Z) (pos : nat) :
  0 <= starting_infected -> 0 <= max_infections ->
  starting_infected
  <= fst (daily_infection rng starting_infected infection_probability
            max_infections pos)
  <= starting_infected * (1 + max_infections).
Proof.
  intros Hs Hm. split; [apply daily_infection_ge|].
  now apply daily_infection_upper.
Qed.

Lemma daily_infection_bounds_witness :
  0 <= 2 /\ 0 <= 3
  /\ 2 <= fst (daily_infection alternating 2 (1 # 4) 3 5%nat) <= 2 * (1 + 3).
Proof.
  split; [lia|]. split; [lia|].
  apply (daily_infection_bounds alternating 2 (1 # 4) 3 5%nat); lia.
Defined.

(** X2.  With a probability of at least 1 and draws in [0,1) every trial
    succeeds: the result is [starting_infected * (1 + max_infections)]. *)
Theorem daily_infection_all_succeed (rng : source) (starting_infected : Z)
    (infection_probability : Q) (max_infections : Z) (pos : nat) :
  0 <= starting_infected -> 0 <= max_infections ->
  unit_draws rng -> (1 <= infection_probability)%Q ->
  fst (daily_infection rng starting_infected infection_probability
         max_infections pos)
  = starting_infected * (1 + max_infections).
Proof.
  intros Hs Hm Hrng Hp. apply daily_infection_full; try assumption.
  now apply unit_draws_below.
Qed.

Lemma daily_infection_all_succeed_witness :
  0 <= 10 /\ 0 <= 3 /\ unit_draws always_high /\ (1 <= 1)%Q
  /\ fst (daily_infection always_high 10 1 3 0%nat) = 10 * (1 + 3).
Proof.
  assert (Hp : (1 <= 1)%Q) by (unfold Qle; simpl; lia).
  split; [lia|]. split; [lia|]. split; [exact always_high_unit_draws|].
  split; [exact Hp|].
  apply (daily_infection_all_succeed always_high 10 1 3 0%nat);
    [lia | lia | exact always_high_unit_draws | exact Hp].
Defined.

(** X3.  On the same draws, a lower probability never gives more infected
    at the end of the day, and the number of draws consumed does not depend
    on the probability. *)
Theorem daily_infection_monotone_probability (rng : source)
    (starting_infected : Z) (p p' : Q) (max_infections : Z) (pos : nat) :
  (p <= p')%Q ->
  fst (daily_infection rng starting_infected p max_infections pos)
  <= fst (daily_infection rng starting_infected p' max_infections pos)
  /\ snd (daily_infection rng starting_infected p max_infections pos)
     = snd (daily_infection rng starting_infected p' max_infections pos).
Proof.
  intros Hpp. rewrite !daily_infection_eq. cbn [fst snd].
  split; [|reflexivity].
  pose proof (successes_mono_probability rng p p'
                (Z.to_nat starting_infected * Z.to_nat max_infections) pos Hpp).
  lia.
Qed.

Lemma daily_infection_monotone_probability_witness :
  ((1 # 4) <= (3 # 4))%Q
  /\ fst (daily_infection alternating 2 (1 # 4) 3 0%nat)
     <= fst (daily_infection alternating 2 (3 # 4) 3 0%nat).
Proof.
  assert (Hpp : ((1 # 4) <= (3 # 4))%Q) by (unfold Qle; simpl; lia).
  split; [exact Hpp|].
  apply (daily_infection_monotone_probability alternating 2 (1 # 4) (3 # 4) 3
           0%nat Hpp).
Defined.

(** X4.  The update rule is additive in the number of infected: a day for
    [a + b] infected is a day for [a] followed, on the next draws, by a day
    for [b]. *)
Theorem daily_infection_additive (rng : source) (a b : Z)
    (infection_probability : Q) (max_infections : Z) (pos : nat) :
  0 <= a -> 0 <= b ->
  let first := daily_infection rng a infection_probability max_infections pos in
  let second :=
    daily_infection rng b infection_probability max_infections (snd first) in
  daily_infection rng (a + b) infection_probability max_infections pos
  = (fst first + fst second, snd second).
Proof.
  intros Ha Hb first second. subst first second.
  rewrite !daily_infection_eq. cbn [fst snd].
  rewrite Z2Nat.inj_add, Nat.mul_add_distr_r, successes_split by assumption.
  f_equal; lia.
Qed.

Lemma daily_infection_additive_witness :
  0 <= 2 /\ 0 <= 3
  /\ daily_infection alternating (2 + 3) (1 # 4) 3 0%nat
     = (fst (daily_infection alternating 2 (1 # 4) 3 0%nat)
        + fst (daily_infection alternating 3 (1 # 4) 3
                 (snd (daily_infection alternating 2 (1 # 4) 3 0%nat))),
        snd (daily_infection alternating 3 (1 # 4) 3
               (snd (daily_infection alternating 2 (1 # 4) 3 0%nat)))).
Proof.
  split; [lia|]. split; [lia|].
  apply (daily_infection_additive alternating 2 3 (1 # 4) 3 0%nat); lia.
Defined.

(** ** More on the fixed-duration driver *)

Section FixedRuns.

Variable rng : source.
Variable p : Q.

Local Abbreviation fixed := (fixed_step rng p).

Lemma fixed_state_succ (s : Z) (pos k : nat) :
  day_state fixed s pos (S k)
  = daily_infection rng (fst (day_state fixed s pos k)) p 3
      (snd (day_state fixed s pos k)).
Proof.
  cbn [day_state]. now destruct (day_state fixed s pos k).
Qed.

(** The fixed driver has no memory but the last value and the cursor. *)
Lemma fixed_state_shift (s : Z) (pos a k : nat) :
  day_state fixed s pos (a + k)
  = day_state fixed (fst (day_state fixed s pos a))
      (snd (day_state fixed s pos a)) k.
Proof.
  induction k as [|k IH].
  - rewrite Nat.add_0_r. cbn [day_state]. now destruct (day_state fixed s pos a).
  - rewrite Nat.add_succ_r, !fixed_state_succ, IH. reflexivity.
Qed.

Lemma fixed_state_lower (s : Z) (pos k : nat) :
  s <= fst (day_state fixed s pos k).
Proof.
  induction k as [|k IH]; [cbn; lia|].
  pose proof (fixed_state_mono rng p s pos k). lia.
Qed.

Lemma fixed_state_upper (s : Z) (pos k : nat) :
  0 <= s -> fst (day_state fixed s pos k) <= s * 4 ^ Z.of_nat k.
Proof.
  intros Hs. induction k as [|k IH]; [cbn [day_state fst]; simpl; lia|].
  rewrite fixed_state_succ, Nat2Z.inj_succ, Z.pow_succ_r by lia.
  pose proof (fixed_state_lower s pos k) as Hlow.
  pose proof (daily_infection_upper rng (fst (day_state fixed s pos k)) p 3
                (snd (day_state fixed s pos k))) as Hup.
  lia.
Qed.

Lemma fixed_state_full (s : Z) (pos k : nat) :
  0 <= s -> (forall i, (rng i < p)%Q) ->
  fst (day_state fixed s pos k) = s * 4 ^ Z.of_nat k.
Proof.
  intros Hs Hall. induction k as [|k IH]; [cbn [day_state fst]; simpl; lia|].
  rewrite fixed_state_succ, Nat2Z.inj_succ, Z.pow_succ_r by lia.
  pose proof (fixed_state_lower s pos k) as Hlow.
  rewrite daily_infection_full; [lia | lia | lia | assumption].
Qed.

Lemma fixed_state_stuck (s : Z) (pos k : nat) :
  (p <= 0)%Q -> (forall i, (0 <= rng i)%Q) ->
  fst (day_state fixed s pos k) = s.
Proof.
  intros Hp Hrng. induction k as [|k IH]; [reflexivity|].
  rewrite fixed_state_succ, daily_infection_eq. cbn [fst].
  rewrite successes_nonpositive by assumption. lia.
Qed.

End FixedRuns.

Section FrameLists.

Variable step : Z -> Z -> M Z.
Variable s : Z.
Variable pos : nat.

Lemma seq_add_shift (x start n : nat) :
  seq (x + start) n = map (Nat.add x) (seq start n).
Proof.
  revert start. induction n as [|n IH]; intros start; [reflexivity|].
  cbn [seq map]. f_equal. rewrite <- IH. f_equal. lia.
Qed.

Lemma frame_of_app (x y : nat) :
  frame_of step s pos (x + y)
  = frame_of step s pos x
    ++ map (fun d => mkrow (Z.of_nat d) (fst (day_state step s pos d)))
         (seq (S x) y).
Proof.
  unfold frame_of. rewrite <- map_app. f_equal.
  replace (S (x + y)) with (S x + y)%nat by lia.
  now rewrite seq_app.
Qed.

Lemma frame_of_tail (n : nat) :
  tl (frame_of step s pos n)
  = map (fun d => mkrow (Z.of_nat d) (fst (day_state step s pos d))) (seq 1 n).
Proof. reflexivity. Qed.

Lemma frame_of_removelast (n : nat) :
  removelast (frame_of step s pos (S n)) = frame_of step s pos n.
Proof. rewrite frame_of_succ. unfold append_row. apply removelast_last. Qed.

Lemma total_infected_append (df : DataFrame) (r : row) :
  total_infected (append_row df r) = total_infected df + Infected r.
Proof.
  unfold append_row. induction df as [|x df IH]; cbn; [lia|].
  unfold total_infected in IH. cbn in IH. rewrite IH. lia.
Qed.

Lemma total_infected_removelast (n : nat) :
  total_infected (removelast (frame_of step s pos n))
  = total_infected (frame_of step s pos n) - fst (day_state step s pos n).
Proof.
  destruct n as [|n].
  - cbn. lia.
  - rewrite frame_of_removelast, frame_of_succ, total_infected_append.
    cbn [Infected]. lia.
Qed.

End FrameLists.

(** X5.  Running [infection_model] for [a + b] days is running it for [a]
    days and then, from the last value and the cursor reached, for [b] more
    days: the second frame without its day-0 row, relabelled [a] days
    later, continues the first. *)
Theorem infection_model_compose (rng : source) (a b starting_infected : Z)
    (infection_probability : Q) (pos : nat) :
  0 <= a -> 0 <= b ->
  let first := infection_model rng a starting_infected infection_probability
                 pos in
  let second := infection_model rng b (last_infected (fst first))
                  infection_probability (snd first) in
  infection_model rng (a + b) starting_infected infection_probability pos
  = (fst first ++ shift_days a (tl (fst second)), snd second).
Proof.
  intros Ha Hb first second. subst first second.
  rewrite !infection_model_frame. cbn [fst snd].
  rewrite frame_of_last, Z2Nat.inj_add by assumption.
  rewrite frame_of_app, frame_of_tail, fixed_state_shift. f_equal.
  f_equal. unfold shift_days. rewrite map_map.
  replace (seq (S (Z.to_nat a)) (Z.to_nat b))
    with (seq (Z.to_nat a + 1) (Z.to_nat b)) by (f_equal; lia).
  rewrite (seq_add_shift (Z.to_nat a) 1 (Z.to_nat b)), map_map.
  apply map_ext. intros d. cbn [Day Infected].
  rewrite fixed_state_shift. f_equal. lia.
Qed.

Lemma infection_model_compose_witness :
  0 <= 1 /\ 0 <= 2
  /\ infection_model alternating (1 + 2) 2 (1 # 4) 0%nat
     = (fst (infection_model alternating 1 2 (1 # 4) 0%nat)
        ++ shift_days 1
             (tl (fst (infection_model alternating 2
                         (last_infected
                            (fst (infection_model alternating 1 2 (1 # 4)
                                    0%nat)))
                         (1 # 4)
                         (snd (infection_model alternating 1 2 (1 # 4)
                                 0%nat))))),
        snd (infection_model alternating 2
               (last_infected
                  (fst (infection_model alternating 1 2 (1 # 4) 0%nat)))
               (1 # 4)
               (snd (infection_model alternating 1 2 (1 # 4) 0%nat)))).
Proof.
  split; [lia|]. split; [lia|].
  apply (infection_model_compose alternating 1 2 2 (1 # 4) 0%nat); lia.
Defined.

(** X6.  From [starting_infected >= 0] the count of day [i] lies between
    [starting_infected] and [starting_infected * 4^i]: a day at most
    quadruples the count. *)
Theorem infection_model_growth (rng : source)
    (number_days starting_infected : Z) (infection_probability : Q)
    (pos : nat) (i : nat) :
  0 <= starting_infected ->
  (i < length (fst (infection_model rng number_days starting_infected
                      infection_probability pos)))%nat ->
  starting_infected
  <= Infected (row_at (fst (infection_model rng number_days starting_infected
                              infection_probability pos)) i)
  <= starting_infected * 4 ^ Z.of_nat i.
Proof.
  intros Hs. rewrite infection_model_frame. cbn [fst].
  rewrite frame_of_length. intros Hi. rewrite frame_of_row by lia.
  cbn [Infected]. split; [apply fixed_state_lower|].
  now apply fixed_state_upper.
Qed.

Lemma infection_model_growth_witness :
  0 <= 2
  /\ (3 < length (fst (infection_model alternating 3 2 (1 # 4) 0%nat)))%nat
  /\ 2 <= Infected (row_at (fst (infection_model alternating 3 2 (1 # 4)
                                   0%nat)) 3)
       <= 2 * 4 ^ Z.of_nat 3.
Proof.
  assert (Hi : (3 < length (fst (infection_model alternating 3 2 (1 # 4)
                                   0%nat)))%nat) by (vm_compute; lia).
  split; [lia|]. split; [exact Hi|].
  apply (infection_model_growth alternating 3 2 (1 # 4) 0%nat 3);
    [lia | exact Hi].
Defined.

(** X7.  With a probability of at least 1 and draws in [0,1) the count
    quadruples every day: day [i] holds [starting_infected * 4^i]. *)
Theorem infection_model_all_succeed_rows (rng : source)
    (number_days starting_infected : Z) (infection_probability : Q)
    (pos : nat) (i : nat) :
  0 <= starting_infected -> unit_draws rng ->
  (1 <= infection_probability)%Q ->
  (i < length (fst (infection_model rng number_days starting_infected
                      infection_probability pos)))%nat ->
  row_at (fst (infection_model rng number_days starting_infected
                 infection_probability pos)) i
  = mkrow (Z.of_nat i) (starting_infected * 4 ^ Z.of_nat i).
Proof.
  intros Hs Hrng Hp. rewrite infection_model_frame. cbn [fst].
  rewrite frame_of_length. intros Hi. rewrite frame_of_row by lia.
  f_equal. apply fixed_state_full; [assumption|].
  now apply unit_draws_below.
Qed.

Lemma infection_model_all_succeed_rows_witness :
  0 <= 10 /\ unit_draws always_high /\ (1 <= 1)%Q
  /\ (2 < length (fst (infection_model always_high 3 10 1 0%nat)))%nat
  /\ row_at (fst (infection_model always_high 3 10 1 0%nat)) 2
     = mkrow (Z.of_nat 2) (10 * 4 ^ Z.of_nat 2).
Proof.
  assert (Hp : (1 <= 1)%Q) by (unfold Qle; simpl; lia).
  assert (Hi : (2 < length (fst (infection_model always_high 3 10 1
                                   0%nat)))%nat) by (vm_compute; lia).
  split; [lia|]. split; [exact always_high_unit_draws|]. split; [exact Hp|].
  split; [exact Hi|].
  apply (infection_model_all_succeed_rows always_high 3 10 1 0%nat 2);
    [lia | exact always_high_unit_draws | exact Hp | exact Hi].
Defined.

(** X8.  With a probability that is zero or negative and draws in [0,1)
    the count never moves: every row holds [starting_infected]. *)
Theorem infection_model_no_growth (rng : source)
    (number_days starting_infected : Z) (infection_probability : Q)
    (pos : nat) (i : nat) :
  unit_draws rng -> (infection_probability <= 0)%Q ->
  (i < length (fst (infection_model rng number_days starting_infected
                      infection_probability pos)))%nat ->
  row_at (fst (infection_model rng number_days starting_infected
                 infection_probability pos)) i
  = mkrow (Z.of_nat i) starting_infected.
Proof.
  intros Hrng Hp. rewrite infection_model_frame. cbn [fst].
  rewrite frame_of_length. intros Hi. rewrite frame_of_row by lia.
  f_equal. apply fixed_state_stuck; [assumption|]. intros k. apply Hrng.
Qed.

Lemma infection_model_no_growth_witness :
  unit_draws always_zero /\ (0 <= 0)%Q
  /\ (3 < length (fst (infection_model always_zero 3 10 0 0%nat)))%nat
  /\ row_at (fst (infection_model always_zero 3 10 0 0%nat)) 3
     = mkrow (Z.of_nat 3) 10.
Proof.
  assert (Hp : (0 <= 0)%Q) by (unfold Qle; simpl; lia).
  assert (Hi : (3 < length (fst (infection_model always_zero 3 10 0
                                   0%nat)))%nat) by (vm_compute; lia).
  split; [exact always_zero_unit_draws|]. split; [exact Hp|].
  split; [exact Hi|].
  apply (infection_model_no_growth always_zero 3 10 0 0%nat 3);
    [exact always_zero_unit_draws | exact Hp | exact Hi].
Defined.

(** The cursor after day [n] of a fixed run from [s >= 0]. *)
Lemma fixed_state_cursor (rng : source) (p : Q) (s : Z) (pos n : nat) :
  0 <= s ->
  Z.of_nat (snd (day_state (fixed_step rng p) s pos n))
  = Z.of_nat pos
    + 3 * (total_infected (frame_of (fixed_step rng p) s pos n)
           - fst (day_state (fixed_step rng p) s pos n)).
Proof.
  intros Hs. induction n as [|n IH].
  { unfold frame_of, total_infected. cbn [seq map fold_right day_state fst snd
      Infected]. lia. }
  rewrite frame_of_succ, total_infected_append. cbn [Infected].
  rewrite fixed_state_succ at 1. rewrite daily_infection_eq. cbn [snd].
  pose proof (fixed_state_lower rng p s pos n) as Hlow.
  change (Z.to_nat 3) with 3%nat. lia.
Qed.

(** X9.  From [starting_infected >= 0], [infection_model] consumes three
    draws per infected person per day: the cursor moves by three times the
    sum of the Infected column without its last row. *)
Theorem infection_model_draws (rng : source)
    (number_days starting_infected : Z) (infection_probability : Q)
    (pos : nat) :
  0 <= starting_infected ->
  let run := infection_model rng number_days starting_infected
               infection_probability pos in
  Z.of_nat (snd run)
  = Z.of_nat pos + 3 * total_infected (removelast (fst run)).
Proof.
  intros Hs run. subst run. rewrite infection_model_frame. cbn [fst snd].
  rewrite total_infected_removelast. now apply fixed_state_cursor.
Qed.

Lemma infection_model_draws_witness :
  0 <= 2
  /\ Z.of_nat (snd (infection_model alternating 3 2 (1 # 4) 0%nat))
     = Z.of_nat 0
       + 3 * total_infected
               (removelast (fst (infection_model alternating 3 2 (1 # 4)
                                   0%nat))).
Proof.
  split; [lia|].
  apply (infection_model_draws alternating 3 2 (1 # 4) 0%nat). lia.
Defined.

(** ** Float subtraction: sign *)

Lemma round_half_even_nonneg (n : Z) (d : positive) :
  0 <= n -> 0 <= round_half_even n d.
Proof.
  intros Hn. unfold round_half_even.
  pose proof (Z.div_pos n (Zpos d) Hn (Pos2Z.is_pos d)) as Hq.
  destruct (2 * (n mod Zpos d) ?= Zpos d); [|lia|lia].
  destruct (Z.even (n / Zpos d)); lia.
Qed.

Lemma round_positive_nonneg (n d : positive) : (0 <= round_positive n d)%Q.
Proof.
  unfold round_positive.
  destruct (0 <=? Z.max (binade n d - 52) (-1074)).
  - unfold Qle, inject_Z. cbn [Qnum Qden]. rewrite Z.mul_1_r, Z.mul_1_r.
    apply Z.mul_nonneg_nonneg;
      [apply round_half_even_nonneg; lia | apply Z.pow_nonneg; lia].
  - unfold Qle. cbn [Qnum Qden]. rewrite Z.mul_1_r.
    apply round_half_even_nonneg.
    apply Z.mul_nonneg_nonneg; [lia | apply Z.pow_nonneg; lia].
Qed.

(** Rounding keeps a difference that is zero or negative so. *)
Lemma round_double_nonpositive (q : Q) :
  (q <= 0)%Q -> (round_double q <= 0)%Q.
Proof.
  destruct q as [[|n|n] d]; unfold round_double; cbn [Qnum Qden]; intros Hq.
  - apply Qle_refl.
  - unfold Qle in Hq. cbn in Hq. lia.
  - pose proof (round_positive_nonneg n d) as Hr.
    apply Qopp_le_compat in Hr. exact Hr.
Qed.

(** ** More on the vaccine driver *)

Section VaccineRuns.

Variable rng : source.
Variable vaccine_day : Z.
Variable v p : Q.
Variable s : Z.
Variable pos : nat.

Local Abbreviation vac := (vaccine_step rng vaccine_day v p).

Lemma vaccine_state_succ (k : nat) :
  day_state vac s pos (S k)
  = daily_infection rng (fst (day_state vac s pos k))
      (vaccine_probability vaccine_day v p (Z.of_nat (S k))) 3
      (snd (day_state vac s pos k)).
Proof.
  cbn [day_state]. destruct (day_state vac s pos k) as [prev c].
  now rewrite vaccine_step_probability.
Qed.

(** Up to the day before the vaccine the run is the fixed run. *)
Lemma vaccine_state_before (k : nat) :
  k = 0%nat \/ Z.of_nat k < vaccine_day ->
  day_state vac s pos k = day_state (fixed_step rng p) s pos k.
Proof.
  induction k as [|k IH]; intros Hk; [reflexivity|].
  rewrite vaccine_state_succ, fixed_state_succ, IH by lia.
  unfold vaccine_probability.
  destruct (Z.ltb_spec (Z.of_nat (S k)) vaccine_day); [reflexivity | lia].
Qed.

(** A vaccine present from day 1 on: the fixed run at the lower
    probability. *)
Lemma vaccine_state_from_start (k : nat) :
  vaccine_day <= 1 ->
  day_state vac s pos k = day_state (fixed_step rng (float_sub p v)) s pos k.
Proof.
  intros Hday. induction k as [|k IH]; [reflexivity|].
  rewrite vaccine_state_succ, fixed_state_succ, IH.
  unfold vaccine_probability.
  destruct (Z.ltb_spec (Z.of_nat (S k)) vaccine_day); [lia | reflexivity].
Qed.

Lemma vaccine_state_frozen_step (k : nat) :
  (p - v <= 0)%Q -> (forall i, (0 <= rng i)%Q) ->
  vaccine_day <= Z.of_nat (S k) ->
  fst (day_state vac s pos (S k)) = fst (day_state vac s pos k).
Proof.
  intros Hp Hrng Hday. rewrite vaccine_state_succ, daily_infection_eq.
  cbn [fst]. unfold vaccine_probability.
  destruct (Z.ltb_spec (Z.of_nat (S k)) vaccine_day); [lia|].
  rewrite successes_nonpositive;
    [lia | now apply round_double_nonpositive | assumption].
Qed.

Lemma vaccine_state_frozen (i k : nat) :
  (p - v <= 0)%Q -> (forall j, (0 <= rng j)%Q) ->
  vaccine_day - 1 <= Z.of_nat i ->
  fst (day_state vac s pos (i + k)) = fst (day_state vac s pos i).
Proof.
  intros Hp Hrng Hday. induction k as [|k IH]; [now rewrite Nat.add_0_r|].
  rewrite Nat.add_succ_r, vaccine_state_frozen_step by (assumption || lia).
  exact IH.
Qed.

Lemma vaccine_introduction_run (number_days : Z) :
  vaccine_introduction rng s vaccine_day v number_days p pos
  = (frame_of vac s pos (Z.to_nat number_days),
     vaccine_summary vaccine_day
       (fst (day_state vac s pos (Z.to_nat number_days))) number_days,
     snd (day_state vac s pos (Z.to_nat number_days))).
Proof.
  unfold vaccine_introduction, bind.
  change (for_each (range 1 (number_days + 1)) _ (new_frame s) pos)
    with (for_each (range 1 (number_days + 1)) (record_day vac)
            (new_frame s) pos).
  rewrite for_each_days. unfold ret. now rewrite frame_of_last.
Qed.

End VaccineRuns.

(** X10.  The rows of the days before [vaccine_day] are the rows
    [infection_model] computes from the same arguments and draws. *)
Theorem vaccine_introduction_before_vaccine (rng : source)
    (starting_infected vaccine_day : Z) (vaccine_effectiveness : Q)
    (number_days : Z) (infection_probability : Q) (pos : nat) (i : nat) :
  Z.of_nat i <= number_days -> Z.of_nat i < vaccine_day ->
  row_at (fst (fst (vaccine_introduction rng starting_infected vaccine_day
                      vaccine_effectiveness number_days infection_probability
                      pos))) i
  = row_at (fst (infection_model rng number_days starting_infected
                   infection_probability pos)) i.
Proof.
  intros Hi Hday. rewrite vaccine_introduction_run, infection_model_frame.
  cbn [fst]. rewrite !frame_of_row by lia.
  now rewrite vaccine_state_before by (right; assumption).
Qed.

Lemma vaccine_introduction_before_vaccine_witness :
  Z.of_nat 2 <= 4 /\ Z.of_nat 2 < 3
  /\ row_at (fst (fst (vaccine_introduction alternating 2 3 (1 # 2) 4 (1 # 2)
                         0%nat))) 2
     = row_at (fst (infection_model alternating 4 2 (1 # 2) 0%nat)) 2.
Proof.
  split; [simpl; lia|]. split; [simpl; lia|].
  apply (vaccine_introduction_before_vaccine alternating 2 3 (1 # 2) 4 (1 # 2)
           0%nat 2); simpl; lia.
Defined.

(** X11.  A vaccine day beyond the last modelled day changes nothing: the
    frame and the draws consumed are those of [infection_model]. *)
Theorem vaccine_introduction_never_reached (rng : source)
    (starting_infected vaccine_day : Z) (vaccine_effectiveness : Q)
    (number_days : Z) (infection_probability : Q) (pos : nat) :
  number_days < vaccine_day ->
  let vaccine := vaccine_introduction rng starting_infected vaccine_day
                   vaccine_effectiveness number_days infection_probability
                   pos in
  (fst (fst vaccine), snd vaccine)
  = infection_model rng number_days starting_infected infection_probability
      pos.
Proof.
  intros Hday vaccine. subst vaccine.
  rewrite vaccine_introduction_run, infection_model_frame. cbn [fst snd].
  f_equal.
  - unfold frame_of. apply map_ext_in. intros d Hd. apply in_seq in Hd.
    rewrite vaccine_state_before; [reflexivity | lia].
  - rewrite vaccine_state_before; [reflexivity | lia].
Qed.

Lemma vaccine_introduction_never_reached_witness :
  4 < 9
  /\ (fst (fst (vaccine_introduction alternating 2 9 (1 # 2) 4 (1 # 2) 0%nat)),
      snd (vaccine_introduction alternating 2 9 (1 # 2) 4 (1 # 2) 0%nat))
     = infection_model alternating 4 2 (1 # 2) 0%nat.
Proof.
  split; [lia|].
  apply (vaccine_introduction_never_reached alternating 2 9 (1 # 2) 4 (1 # 2)
           0%nat). lia.
Defined.

(** X12.  A vaccine day of 1 or less applies the vaccine on every day: the
    frame and the draws consumed are those of [infection_model] run with
    the float difference [infection_probability - vaccine_effectiveness]. *)
Theorem vaccine_introduction_from_start (rng : source)
    (starting_infected vaccine_day : Z) (vaccine_effectiveness : Q)
    (number_days : Z) (infection_probability : Q) (pos : nat) :
  vaccine_day <= 1 ->
  let vaccine := vaccine_introduction rng starting_infected vaccine_day
                   vaccine_effectiveness number_days infection_probability
                   pos in
  (fst (fst vaccine), snd vaccine)
  = infection_model rng number_days starting_infected
      (float_sub infection_probability vaccine_effectiveness) pos.
Proof.
  intros Hday vaccine. subst vaccine.
  rewrite vaccine_introduction_run, infection_model_frame. cbn [fst snd].
  f_equal.
  - unfold frame_of. apply map_ext. intros d.
    now rewrite vaccine_state_from_start.
  - now rewrite vaccine_state_from_start.
Qed.

Lemma vaccine_introduction_from_start_witness :
  0 <= 1
  /\ (fst (fst (vaccine_introduction alternating 2 0 (1 # 4) 4 (1 # 2) 0%nat)),
      snd (vaccine_introduction alternating 2 0 (1 # 4) 4 (1 # 2) 0%nat))
     = infection_model alternating 4 2 (float_sub (1 # 2) (1 # 4)) 0%nat.
Proof.
  split; [lia|].
  apply (vaccine_introduction_from_start alternating 2 0 (1 # 4) 4 (1 # 2)
           0%nat). lia.
Defined.

(** X13.  When the effectiveness is at least the probability and the draws
    lie in [0,1), the count is frozen from the day before the vaccine on:
    every later row repeats it. *)
Theorem vaccine_introduction_frozen (rng : source)
    (starting_infected vaccine_day : Z) (vaccine_effectiveness : Q)
    (number_days : Z) (infection_probability : Q) (pos : nat) (i j : nat) :
  unit_draws rng ->
  (infection_probability - vaccine_effectiveness <= 0)%Q ->
  vaccine_day - 1 <= Z.of_nat i -> (i <= j)%nat -> Z.of_nat j <= number_days ->
  let df := fst (fst (vaccine_introduction rng starting_infected vaccine_day
                        vaccine_effectiveness number_days
                        infection_probability pos)) in
  Infected (row_at df j) = Infected (row_at df i).
Proof.
  intros Hrng Hp Hday Hij Hj df. subst df.
  rewrite vaccine_introduction_run. cbn [fst].
  rewrite !frame_of_row by lia. cbn [Infected].
  replace j with (i + (j - i))%nat by lia.
  apply vaccine_state_frozen; [assumption | | assumption].
  intros k. apply Hrng.
Qed.

Lemma vaccine_introduction_frozen_witness :
  unit_draws always_zero /\ ((1 # 2) - (1 # 2) <= 0)%Q
  /\ 3 - 1 <= Z.of_nat 2 /\ (2 <= 4)%nat /\ Z.of_nat 4 <= 4
  /\ Infected (row_at (fst (fst (vaccine_introduction always_zero 2 3 (1 # 2)
                                   4 (1 # 2) 0%nat))) 4)
     = Infected (row_at (fst (fst (vaccine_introduction always_zero 2 3
                                     (1 # 2) 4 (1 # 2) 0%nat))) 2).
Proof.
  assert (Hp : ((1 # 2) - (1 # 2) <= 0)%Q) by (unfold Qle; simpl; lia).
  split; [exact always_zero_unit_draws|]. split; [exact Hp|].
  split; [simpl; lia|]. split; [lia|]. split; [simpl; lia|].
  apply (vaccine_introduction_frozen always_zero 2 3 (1 # 2) 4 (1 # 2) 0%nat
           2 4 always_zero_unit_draws Hp); [simpl; lia | lia | simpl; lia].
Defined.

(** X14.  For [number_days >= 0] the printed line reports the count of the
    row whose Day is [number_days], the last row of the frame. *)
Theorem vaccine_introduction_summary (rng : source)
    (starting_infected vaccine_day : Z) (vaccine_effectiveness : Q)
    (number_days : Z) (infection_probability : Q) (pos : nat) :
  0 <= number_days ->
  let run := vaccine_introduction rng starting_infected vaccine_day
               vaccine_effectiveness number_days infection_probability pos in
  let df := fst (fst run) in
  let final := row_at df (length df - 1) in
  Day final = number_days
  /\ snd (fst run)
     = vaccine_summary vaccine_day (Infected final) number_days.
Proof.
  intros HN run df final. subst final df run.
  rewrite vaccine_introduction_run. cbn [fst snd].
  rewrite frame_of_length. replace (S (Z.to_nat number_days) - 1)%nat
    with (Z.to_nat number_days) by lia.
  rewrite frame_of_row by lia. cbn [Day Infected]. split; [lia | reflexivity].
Qed.

Lemma vaccine_introduction_summary_witness :
  0 <= 4
  /\ snd (fst (vaccine_introduction alternating 2 3 (1 # 2) 4 (1 # 2) 0%nat))
     = vaccine_summary 3
         (Infected
            (row_at
               (fst (fst (vaccine_introduction alternating 2 3 (1 # 2) 4
                            (1 # 2) 0%nat)))
               (length
                  (fst (fst (vaccine_introduction alternating 2 3 (1 # 2) 4
                               (1 # 2) 0%nat))) - 1)))
         4.
Proof.
  split; [lia|].
  apply (vaccine_introduction_summary alternating 2 3 (1 # 2) 4 (1 # 2) 0%nat).
  lia.
Defined.

(** ** More on the saturation driver *)

Section SaturationRuns.

Variable rng : source.
Variable population : Z.
Variable p : Q.
Variable s : Z.
Variable pos : nat.

Local Abbreviation sat := (saturation_step rng population p).
Local Abbreviation fixed := (fixed_step rng p).

(** With nobody infected no trial is ever made. *)
Lemma saturation_state_idle (k : nat) :
  s <= 0 -> s < population -> day_state sat s pos k = (s, pos).
Proof.
  intros Hs Hlt. induction k as [|k IH]; [reflexivity|].
  rewrite saturation_state_succ, IH. cbn [fst snd].
  unfold daily_infection_default. rewrite daily_infection_eq. cbn [fst snd].
  replace (Z.to_nat s) with 0%nat by lia. cbn [Nat.mul successes].
  rewrite Z.add_0_r, Nat.add_0_r.
  destruct (Z.ltb_spec s population); [reflexivity | lia].
Qed.

(** While below the population the run is the fixed run. *)
Lemma saturation_state_fixed (k : nat) :
  (forall j, (j <= k)%nat -> fst (day_state sat s pos j) < population) ->
  day_state sat s pos k = day_state fixed s pos k.
Proof.
  induction k as [|k IH]; intros Hbelow; [reflexivity|].
  pose proof (Hbelow (S k) (Nat.le_refl _)) as Hlt.
  rewrite saturation_state_succ in Hlt |- *. cbn [fst] in Hlt.
  rewrite fixed_state_succ, <- IH by (intros j Hj; apply Hbelow; lia).
  unfold daily_infection_default in *.
  destruct (daily_infection rng (fst (day_state sat s pos k)) p 3
              (snd (day_state sat s pos k))) as [raw c].
  cbn [fst snd] in *.
  destruct (Z.ltb_spec raw population); [reflexivity | lia].
Qed.

(** The day that reaches the population: the fixed run reaches it too. *)
Lemma saturation_state_last (k : nat) :
  (forall j, (j <= k)%nat -> fst (day_state sat s pos j) < population) ->
  population <= fst (day_state sat s pos (S k)) ->
  population <= fst (day_state fixed s pos (S k))
  /\ snd (day_state sat s pos (S k)) = snd (day_state fixed s pos (S k)).
Proof.
  intros Hbelow Hreach.
  rewrite saturation_state_succ in Hreach |- *. cbn [fst snd] in Hreach |- *.
  rewrite fixed_state_succ, <- saturation_state_fixed by assumption.
  unfold daily_infection_default in *.
  destruct (daily_infection rng (fst (day_state sat s pos k)) p 3
              (snd (day_state sat s pos k))) as [raw c].
  cbn [fst snd] in *.
  destruct (Z.ltb_spec raw population); [lia | split; [lia | reflexivity]].
Qed.

Lemma saturation_state_growth (k : nat) :
  0 <= s ->
  (forall j, (j < k)%nat -> fst (day_state sat s pos j) < population) ->
  s <= fst (day_state sat s pos k) <= s * 4 ^ Z.of_nat k.
Proof.
  intros Hs. induction k as [|k IH]; intros Hbelow.
  - cbn [day_state fst]. simpl. lia.
  - destruct IH as [Hlow Hup]; [intros j Hj; apply Hbelow; lia|].
    pose proof (Hbelow k (Nat.lt_succ_diag_r k)) as Hlt.
    rewrite saturation_state_succ, Nat2Z.inj_succ, Z.pow_succ_r by lia.
    cbn [fst]. unfold daily_infection_default.
    pose proof (daily_infection_ge rng (fst (day_state sat s pos k)) p 3
                  (snd (day_state sat s pos k))) as Hge.
    pose proof (daily_infection_upper rng (fst (day_state sat s pos k)) p 3
                  (snd (day_state sat s pos k))) as Hle.
    destruct (Z.ltb_spec
                (fst (daily_infection rng (fst (day_state sat s pos k)) p 3
                        (snd (day_state sat s pos k)))) population); lia.
Qed.

(** A returning run from [1 <= s < population] has consumed draws that
    hold at least [population - s] successes. *)
Lemma full_pop_infected_successes (fuel : nat) (df : DataFrame)
    (line : string) (q : nat) :
  full_pop_infected rng fuel population s p pos = Some (df, line, q) ->
  1 <= s -> s < population ->
  population - s <= successes rng p pos (q - pos).
Proof.
  intros Hrun Hs Hlt. apply full_pop_infected_sound in Hrun.
  destruct Hrun as (n & _ & _ & -> & Hbelow & Hreach).
  destruct n as [|n]; [cbn [day_state fst] in Hreach; lia|].
  destruct (saturation_state_unclamped rng population p s pos n Hs)
    as [Hval Hcur]; [intros k Hk; apply Hbelow; lia|].
  rewrite saturation_state_succ in Hreach |- *. cbn [fst snd] in Hreach |- *.
  unfold daily_infection_default in *.
  rewrite daily_infection_eq in Hreach |- *. cbn [fst snd] in Hreach |- *.
  set (v := fst (day_state sat s pos n)) in *.
  set (c := snd (day_state sat s pos n)) in *.
  replace (c + Z.to_nat v * Z.to_nat 3 - pos)%nat
    with ((c - pos) + Z.to_nat v * Z.to_nat 3)%nat by lia.
  rewrite successes_split. replace (pos + (c - pos))%nat with c by lia.
  destruct (Z.ltb_spec (v + successes rng p c (Z.to_nat v * Z.to_nat 3))
              population); lia.
Qed.

End SaturationRuns.

(** X15.  With [starting_infected <= 0] below the population nobody can
    infect anybody: whatever the probability and the draws, the saturation
    driver returns for no amount of fuel. *)
Theorem full_pop_infected_nobody_infected (rng : source) (fuel : nat)
    (population starting_infected : Z) (infection_probability : Q)
    (pos : nat) :
  starting_infected <= 0 -> starting_infected < population ->
  full_pop_infected rng fuel population starting_infected
    infection_probability pos = None.
Proof.
  intros Hs Hlt.
  destruct (full_pop_infected rng fuel population starting_infected
              infection_probability pos) as [[[df line] q]|] eqn:Hrun;
    [|reflexivity].
  apply full_pop_infected_sound in Hrun.
  destruct Hrun as (n & _ & _ & _ & _ & Hreach).
  rewrite saturation_state_idle in Hreach by assumption.
  cbn [fst] in Hreach. lia.
Qed.

Lemma full_pop_infected_nobody_infected_witness :
  0 <= 0 /\ 0 < 1000
  /\ full_pop_infected always_zero 50 1000 0 1 0%nat = None.
Proof.
  split; [lia|]. split; [lia|].
  apply (full_pop_infected_nobody_infected always_zero 50 1000 0 1 0%nat); lia.
Defined.

(** X16.  From [1 <= starting_infected < population] the saturation driver
    returns exactly when the draws from the cursor on hold at least
    [population - starting_infected] values below the probability. *)
Theorem full_pop_infected_returns_iff (rng : source)
    (population starting_infected : Z) (infection_probability : Q)
    (pos : nat) :
  1 <= starting_infected -> starting_infected < population ->
  (exists fuel df line q,
     full_pop_infected rng fuel population starting_infected
       infection_probability pos = Some (df, line, q))
  <-> (exists n : nat,
         population - starting_infected
         <= successes rng infection_probability pos n).
Proof.
  intros Hs Hlt. split.
  - intros (fuel & df & line & q & Hrun). exists (q - pos)%nat.
    exact (full_pop_infected_successes rng population infection_probability
             starting_infected pos fuel df line q Hrun Hs Hlt).
  - intros (n & Hdraws).
    destruct (full_pop_infected_returns rng population infection_probability
                starting_infected pos n Hs Hdraws)
      as (fuel & [[df line] q] & Hrun).
    eauto.
Qed.

Lemma full_pop_infected_returns_iff_witness :
  1 <= 10 /\ 10 < 20
  /\ ((exists fuel df line q,
         full_pop_infected always_zero fuel 20 10 (5 # 100) 0%nat
         = Some (df, line, q))
      <-> (exists n : nat, 20 - 10 <= successes always_zero (5 # 100) 0 n)).
Proof.
  split; [lia|]. split; [lia|].
  apply (full_pop_infected_returns_iff always_zero 20 10 (5 # 100) 0%nat); lia.
Defined.

(** X18.  A count at most quadruples in a day, so a returning run from
    [starting_infected >= 0] has enough rows for the population to be in
    reach: [population <= starting_infected * 4^(rows - 1)]. *)
Theorem full_pop_infected_earliest (rng : source) (fuel : nat)
    (population starting_infected : Z) (infection_probability : Q)
    (pos : nat) (df : DataFrame) (line : string) (q : nat) :
  full_pop_infected rng fuel population starting_infected
    infection_probability pos = Some (df, line, q) ->
  0 <= starting_infected ->
  population <= starting_infected * 4 ^ (Z.of_nat (length df) - 1).
Proof.
  intros Hrun Hs. apply full_pop_infected_sound in Hrun.
  destruct Hrun as (n & -> & _ & _ & Hbelow & Hreach).
  rewrite frame_of_length.
  replace (Z.of_nat (S n) - 1) with (Z.of_nat n) by lia.
  pose proof (saturation_state_growth rng population infection_probability
                starting_infected pos n Hs Hbelow). lia.
Qed.

Lemma full_pop_infected_earliest_witness :
  full_pop_infected always_zero 5 100 10 (5 # 100) 0%nat
  = Some ([mkrow 0 10; mkrow 1 40; mkrow 2 100], full_pop_summary 3, 150%nat)
  /\ 0 <= 10
  /\ 100 <= 10 * 4 ^ (Z.of_nat (length [mkrow 0 10; mkrow 1 40; mkrow 2 100])
                      - 1).
Proof.
  assert (Hrun : full_pop_infected always_zero 5 100 10 (5 # 100) 0%nat
                 = Some ([mkrow 0 10; mkrow 1 40; mkrow 2 100],
                         full_pop_summary 3, 150%nat))
    by (vm_compute; reflexivity).
  split; [exact Hrun|]. split; [lia|].
  apply (full_pop_infected_earliest always_zero 5 100 10 (5 # 100) 0%nat
           _ _ _ Hrun). lia.
Defined.

(** X19.  A returning saturation run is the fixed-duration run of as many
    days on the same draws with its last value clamped: [infection_model]
    gives the same rows but the last, consumes the same draws, and its last
    value is at least the population. *)
Theorem full_pop_infected_as_infection_model (rng : source) (fuel : nat)
    (population starting_infected : Z) (infection_probability : Q)
    (pos : nat) (df : DataFrame) (line : string) (q : nat) :
  full_pop_infected rng fuel population starting_infected
    infection_probability pos = Some (df, line, q) ->
  exists raw : Z,
    population <= raw
    /\ infection_model rng (Z.of_nat (length df) - 1) starting_infected
         infection_probability pos
       = (append_row (removelast df)
            (mkrow (Z.of_nat (length df) - 1) raw), q).
Proof.
  intros Hrun. apply full_pop_infected_sound in Hrun.
  destruct Hrun as (n & -> & _ & -> & Hbelow & Hreach).
  rewrite frame_of_length, infection_model_frame.
  replace (Z.to_nat (Z.of_nat (S n) - 1)) with n by lia.
  destruct n as [|n].
  - exists starting_infected. split; [exact Hreach | reflexivity].
  - destruct (saturation_state_last rng population infection_probability
                starting_infected pos n) as [Hraw Hcur];
      [intros j Hj; apply Hbelow; lia | exact Hreach |].
    exists (fst (day_state (fixed_step rng infection_probability)
                   starting_infected pos (S n))).
    split; [exact Hraw|].
    rewrite frame_of_removelast, Hcur, (frame_of_succ (fixed_step _ _)).
    f_equal. f_equal; [|f_equal; lia].
    unfold frame_of. apply map_ext_in. intros d Hd. apply in_seq in Hd.
    rewrite saturation_state_fixed; [reflexivity|].
    intros j Hj. apply Hbelow. lia.
Qed.

Lemma full_pop_infected_as_infection_model_witness :
  full_pop_infected always_zero 5 100 10 (5 # 100) 0%nat
  = Some ([mkrow 0 10; mkrow 1 40; mkrow 2 100], full_pop_summary 3, 150%nat)
  /\ exists raw : Z,
       100 <= raw
       /\ infection_model always_zero
            (Z.of_nat (length [mkrow 0 10; mkrow 1 40; mkrow 2 100]) - 1) 10
            (5 # 100) 0%nat
          = (append_row (removelast [mkrow 0 10; mkrow 1 40; mkrow 2 100])
               (mkrow (Z.of_nat (length [mkrow 0 10; mkrow 1 40; mkrow 2 100])
                       - 1) raw), 150%nat).
Proof.
  assert (Hrun : full_pop_infected always_zero 5 100 10 (5 # 100) 0%nat
                 = Some ([mkrow 0 10; mkrow 1 40; mkrow 2 100],
                         full_pop_summary 3, 150%nat))
    by (vm_compute; reflexivity).
  split; [exact Hrun|].
  apply (full_pop_infected_as_infection_model always_zero 5 100 10 (5 # 100)
           0%nat _ _ _ Hrun).
Defined.

(** ** Plotting and the script *)

Lemma series_points_from (df : DataFrame) (start : nat) :
  (forall i, (i < length df)%nat ->
     Day (nth i df (mkrow 0 0)) = Z.of_nat (start + i)) ->
  combine (map Z.of_nat (seq start (length df))) (map Infected df)
  = map (fun r => (Day r, Infected r)) df.
Proof.
  revert start. induction df as [|r df IH]; intros start Hdays; [reflexivity|].
  cbn [length seq map combine]. f_equal.
  - pose proof (Hdays 0%nat ltac:(cbn; lia)) as H0. cbn [nth] in H0.
    rewrite H0. f_equal. f_equal. lia.
  - apply IH. intros i Hi.
    pose proof (Hdays (S i) ltac:(cbn; lia)) as HS. cbn [nth] in HS.
    rewrite HS. f_equal. lia.
Qed.

Lemma series_points_days (df : DataFrame) :
  consecutive_days df ->
  series_points (map Infected df) = map (fun r => (Day r, Infected r)) df.
Proof.
  intros Hdays. unfold series_points. rewrite length_map.
  apply series_points_from. intros i Hi. exact (Hdays i Hi).
Qed.

(** X20.  The curve of the Infected column is drawn against the row
    labels; on a frame whose Day values are 0, 1, 2, ... in row order, as
    the drivers return them, each point drawn is (Day, Infected) of a row,
    whatever the vaccine marker. *)
Theorem plot_pandemic_points (df : DataFrame) (vaccine_day : option Z) :
  consecutive_days df ->
  In (AxPlot (map (fun r => (Day r, Infected r)) df))
     (fst (plot_pandemic df "Infected" vaccine_day))
  /\ snd (plot_pandemic df "Infected" vaccine_day) = Returned.
Proof.
  intros Hdays. unfold plot_pandemic.
  change (column df "Infected") with (Some (map Infected df)).
  cbn [fst snd]. split; [|reflexivity].
  rewrite series_points_days by assumption. cbn [app]. right. now left.
Qed.

Lemma two_rows_consecutive : consecutive_days [mkrow 0 10; mkrow 1 40].
Proof.
  intros i Hi. destruct i as [|[|i]]; [reflexivity | reflexivity|].
  cbn [length] in Hi. lia.
Defined.

Lemma plot_pandemic_points_witness :
  consecutive_days [mkrow 0 10; mkrow 1 40]
  /\ In (AxPlot [(0, 10); (1, 40)])
        (fst (plot_pandemic [mkrow 0 10; mkrow 1 40] "Infected" (Some 3))).
Proof.
  split; [exact two_rows_consecutive|].
  apply (plot_pandemic_points [mkrow 0 10; mkrow 1 40] (Some 3)
           two_rows_consecutive).
Defined.

(** X21.  On an existing column the green dashed line and the legend are
    drawn exactly when a vaccine day other than 0 is given, the line at
    that day; a vaccine day of 0 draws neither. *)
Theorem plot_pandemic_marker (df : DataFrame) (infected_col : string)
    (vaccine_day : option Z) (x : Z) :
  infected_col = "Day"%string \/ infected_col = "Infected"%string ->
  let calls := fst (plot_pandemic df infected_col vaccine_day) in
  (In (AxVLine x "green" "--" "Vaccine introduction") calls
   <-> vaccine_day = Some x /\ x <> 0)
  /\ (In PltLegend calls <-> exists y, vaccine_day = Some y /\ y <> 0).
Proof.
  intros Hcol calls. subst calls.
  assert (Hsome : exists ys, column df infected_col = Some ys).
  { destruct Hcol as [-> | ->]; unfold column; cbn; eauto. }
  destruct Hsome as [ys Hys]. unfold plot_pandemic. rewrite Hys. cbn [fst].
  destruct vaccine_day as [y|].
  - destruct (Z.eqb_spec y 0) as [-> | Hne].
    + cbn. split; split.
      * intros H. repeat (destruct H as [H|H]; try discriminate). contradiction.
      * intros [Heq Hx]. injection Heq as <-. lia.
      * intros H. repeat (destruct H as [H|H]; try discriminate). contradiction.
      * intros (z & Heq & Hz). injection Heq as <-. lia.
    + cbn. split; split.
      * intros H. repeat (destruct H as [H|H]; try discriminate);
          [|contradiction].
        injection H as <-. split; [reflexivity | assumption].
      * intros [Heq _]. injection Heq as ->. do 5 right. now left.
      * intros _. exists y. split; [reflexivity | assumption].
      * intros _. do 6 right. now left.
  - cbn. split; split.
    + intros H. repeat (destruct H as [H|H]; try discriminate). contradiction.
    + intros [Heq _]. discriminate.
    + intros H. repeat (destruct H as [H|H]; try discriminate). contradiction.
    + intros (z & Heq & _). discriminate.
Qed.

Lemma plot_pandemic_marker_witness :
  ("Infected"%string = "Day"%string \/ "Infected"%string = "Infected"%string)
  /\ (In (AxVLine 3 "green" "--" "Vaccine introduction")
         (fst (plot_pandemic [mkrow 0 10; mkrow 1 40] "Infected" (Some 3)))
      <-> Some 3 = Some 3 /\ 3 <> 0).
Proof.
  split; [now right|].
  apply (plot_pandemic_marker [mkrow 0 10; mkrow 1 40] "Infected" (Some 3) 3).
  now right.
Defined.

(** X22.  The script runs to its end exactly when the draws that follow
    the three-day simulation hold at least 990 values below the infection
    probability: the saturation run from 10 infected out of 1000 is the
    only call that can fail to return. *)
Theorem script_completes_iff (rng : source) (p e : Q) (pos : nat) :
  (exists fuel r, script rng p e fuel pos = Some r)
  <-> (exists n : nat,
         990 <= successes rng p (snd (infection_model rng 3 10 p pos)) n).
Proof.
  unfold script.
  destruct (infection_model rng 3 10 p pos) as [three_day q1]. cbn [snd].
  split.
  - intros (fuel & r & Hrun).
    destruct (full_pop_infected rng fuel 1000 10 p q1)
      as [[[full_pop line1] q2]|] eqn:Hfull; [|discriminate].
    exists (q2 - q1)%nat.
    pose proof (full_pop_infected_successes rng 1000 p 10 q1 fuel full_pop
                  line1 q2 Hfull) as Hdraws.
    lia.
  - intros (n & Hdraws).
    destruct (full_pop_infected_returns rng 1000 p 10 q1 n)
      as (fuel & [[full_pop line1] q2] & Hfull); [lia | lia |].
    exists fuel. rewrite Hfull.
    destruct (vaccine_introduction rng 10 3 e 10 p q2) as [[vaccine line2] q3].
    eauto.
Qed.
